(** * ITS_LIVE granule transfer: [transfer_asf_to_its_live.py]

    A shallow embedding of the transfer tool and the proofs of its
    specification.

    - [point_to_prefix] (the spatial prefix resolver) is a pure function.
      The source computes on IEEE doubles; here a coordinate is an exact
      rational ([Q]), [np.trunc] is truncation toward zero and the
      comparison [>= 0.0] is [Qle_bool 0].  NaN, infinities and the
      rounding of [lat/10.0] are outside this model.
    - [ASFTransfer.copy_granule] and [ASFTransfer.run] are written in a
      state-and-exception monad over a [World] holding the object store,
      the history of the store calls and the log.  The collaborators
      (HyP3 job lookup, the remote NetCDF reader, S3) are the fields of an
      environment record [Env]. *)

From Stdlib Require Import ZArith QArith Qabs String Ascii List Lia DecimalString.
From stdpp Require Import gmap strings.


Local Open Scope Z_scope.

(** ** Python helpers used by the source *)

Module Py.

(** [str(n)] for an [int]. *)
Definition str_int (n : Z) : string := NilZero.string_of_int (Z.to_int n).

Fixpoint zeros (k : nat) : string :=
  match k with
  | O => ""
  | S k' => String "0" (zeros k')
  end.

(** [f'{n:0Wd}']: decimal digits, zero-padded on the left up to [width]
    characters; the sign, when there is one, goes first and counts in
    the width. *)
Definition format_0d (width : nat) (n : Z) : string :=
  let digits := str_int (Z.abs n) in
  if n <? 0
  then "-" +:+ zeros (width - 1 - String.length digits)%nat +:+ digits
  else zeros (width - String.length digits)%nat +:+ digits.

Fixpoint endswith_char (s : string) (c : ascii) : bool :=
  match s with
  | EmptyString => false
  | String a EmptyString => Ascii.eqb a c
  | String _ rest => endswith_char rest c
  end.

(** [os.path.join(a, b)] of [posixpath], two components: an absolute
    [b] replaces [a]; no separator is added after an empty [a] or after
    an [a] that already ends with one. *)
Definition os_path_join (a b : string) : string :=
  if String.prefix "/" b then b
  else if (String.eqb a "" || endswith_char a "/")%bool then a +:+ b
  else a +:+ "/" +:+ b.

(** [np.trunc] followed by [int(...)]: rounding toward zero. *)
Definition np_trunc (x : Q) : Z := Z.quot (Qnum x) (Zpos (Qden x)).

(** [l[start:stop]] for a list, with Python's treatment of negative and
    out-of-range bounds. *)
Definition clamp_index (len i : Z) : Z :=
  let i' := if i <? 0 then i + len else i in
  Z.max 0 (Z.min len i').

Definition slice {A} (l : list A) (start stop : Z) : list A :=
  let len := Z.of_nat (length l) in
  let lo := clamp_index len start in
  let hi := clamp_index len stop in
  firstn (Z.to_nat (hi - lo)) (skipn (Z.to_nat lo) l).

End Py.

(** ** Spatial prefix resolver *)

(** [int(10*np.trunc(np.abs(v/10.0)))], lines 40 and 44. *)
Definition bin10 (v : Q) : Z := 10 * Py.np_trunc (Qabs (v / 10)).

Definition NShemi_str (lat : Q) : string := if Qle_bool 0 lat then "N" else "S".
Definition EWhemi_str (lon : Q) : string := if Qle_bool 0 lon then "E" else "W".

Definition outlat (lat : Q) : Z :=
  let o := bin10 lat in
  if o =? 90 then 80 else o.

Definition outlon (lon : Q) : Z :=
  let o := bin10 lon in
  if 180 <=? o then 170 else o.

(** The formatted string of line 49. *)
Definition cell_name (lat lon : Q) : string :=
  NShemi_str lat +:+ Py.format_0d 2 (outlat lat) +:+
  EWhemi_str lon +:+ Py.format_0d 3 (outlon lon).

Definition point_to_prefix (dir_path : string) (lat lon : Q) : string :=
  Py.os_path_join dir_path (cell_name lat lon).

(** *** Vocabulary of the specification of the resolver *)

Definition in_lat_domain (lat : Q) : Prop := (-90 <= lat)%Q /\ (lat <= 90)%Q.
Definition in_lon_domain (lon : Q) : Prop := (-180 <= lon)%Q /\ (lon <= 180)%Q.

Definition is_digit (c : ascii) : bool :=
  ((48 <=? nat_of_ascii c)%nat && (nat_of_ascii c <=? 57)%nat)%bool.

Definition one_of (c a b : ascii) : bool := (Ascii.eqb c a || Ascii.eqb c b)%bool.

(** The regular expression [[NS]\d{2}[EW]\d{3}], anchored at both ends. *)
Definition matches_cell (s : string) : bool :=
  match s with
  | String h (String a (String b (String e (String x (String y (String z EmptyString)))))) =>
      (one_of h "N" "S" && is_digit a && is_digit b &&
       one_of e "E" "W" && is_digit x && is_digit y && is_digit z)%bool
  | _ => false
  end.

Definition digit_char (d : Z) : ascii := ascii_of_nat (48 + Z.to_nat d).

(** [n] written with exactly two, resp. three, decimal digits. *)
Definition two_digits (n : Z) : string :=
  String (digit_char (n / 10)) (String (digit_char (n mod 10)) "").
Definition three_digits (n : Z) : string :=
  String (digit_char (n / 100)) (two_digits (n mod 100)).

(** *** Reading a cell name back *)

(** The value of a decimal digit. *)
Definition digit_val (c : ascii) : Z := Z.of_nat (nat_of_ascii c) - 48.

(** [parse_cell s]: for a string of the form [[NS]\d{2}[EW]\d{3}], whether
    the first letter is N, the two-digit number, whether the fourth
    letter is E, and the three-digit number. *)
Definition parse_cell (s : string) : option (bool * Z * bool * Z) :=
  match s with
  | String h (String a (String b (String e (String x (String y (String z EmptyString)))))) =>
      if matches_cell s
      then Some (Ascii.eqb h "N", 10 * digit_val a + digit_val b,
                 Ascii.eqb e "E", 100 * digit_val x + 10 * digit_val y + digit_val z)
      else None
  | _ => None
  end.


(** ** The world of the transfer tool *)

(** Exceptions.  [ClientError] is [botocore.exceptions.ClientError] with
    the error code of the response ("404", "403", "SlowDown", ...);
    [OtherError] stands for every exception that is not a [ClientError],
    an [IndexError] or an [AssertionError] (connection errors, HTTP errors
    of the HyP3 client, I/O errors of the reader, ...). *)
Inductive exn : Type :=
| ClientError (code : string)
| IndexError
| AssertionError
| OtherError (what : string).

(** One output file of a job: [job.files[i]] with its ['url'],
    ['filename'], ['s3']['bucket'] and ['s3']['key']. *)
Record FileDesc : Type := {
  f_url : string;
  f_filename : string;
  f_s3_bucket : string;
  f_s3_key : string
}.

Inductive StatusCode : Type := PENDING | RUNNING | SUCCEEDED | FAILED.

(** A [hyp3_sdk.Job] as the tool reads it; [job_text] is the text that
    [f'{job}'] produces. *)
Record Job : Type := {
  job_text : string;
  status_code : StatusCode;
  files : list FileDesc
}.

Definition succeeded (j : Job) : bool :=
  match status_code j with SUCCEEDED => true | _ => false end.
Definition failed (j : Job) : bool :=
  match status_code j with FAILED => true | _ => false end.
Definition complete (j : Job) : bool := (succeeded j || failed j)%bool.
Definition running (j : Job) : bool := negb (complete j).

(** The calls the tool makes on the boto3 bucket, as a mock of the bucket
    would record them: [HeadObject b k] is [bucket.Object(k).load()] and
    [CopyObject sb sk b k] is [bucket.copy({'Bucket': sb, 'Key': sk}, k)].
    The requests that boto3 sends to carry out a managed copy (a
    HeadObject on the source, then a CopyObject or a multipart copy) are
    below this level and are not recorded. *)
Inductive S3Call : Type :=
| HeadObject (bucket key : string)
| CopyObject (src_bucket src_key bucket key : string).

(** The state the tool acts on: the objects of S3 by (bucket, key), the
    calls made on the bucket so far, the ids of every chunk handed to
    [dask.compute] so far, and the lines logged so far (oldest first). *)
Record World : Type := {
  objects : gmap (string * string) string;
  s3_calls : list S3Call;
  dispatched : list (list string);
  log : list string
}.

(** The collaborators.  [head_fault b k] is the exception, if any, that
    a [HeadObject] on [(b, k)] raises whether or not the object is there
    (access denied, throttling, a connection error, ...); [copy_fault]
    is the same for a copy. *)
Record Env : Type := {
  get_job_by_id : string -> exn + Job;
  open_dataset : string -> exn + (Q * Q);
  head_fault : string -> string -> option exn;
  copy_fault : string * string -> string * string -> option exn;
  str_float : Q -> string
}.

(** ** State and exceptions *)

Inductive Outcome (A : Type) : Type :=
| Returned (a : A)
| Raised (e : exn)
| OutOfFuel.
Arguments Returned {A} a.
Arguments Raised {A} e.
Arguments OutOfFuel {A}.

Definition M (A : Type) : Type := World -> Outcome A * World.

Definition ret {A} (a : A) : M A := fun w => (Returned a, w).

Definition raise {A} (e : exn) : M A := fun w => (Raised e, w).

Definition bind {A B} (m : M A) (k : A -> M B) : M B :=
  fun w =>
    match m w with
    | (Returned a, w') => k a w'
    | (Raised e, w') => (Raised e, w')
    | (OutOfFuel, w') => (OutOfFuel, w')
    end.

Declare Scope transfer_scope.
Delimit Scope transfer_scope with transfer.
Notation "x <~ m ;; k" := (bind m (fun x => k))
  (at level 100, m at next level, right associativity) : transfer_scope.
Notation "m ;;; k" := (bind m (fun _ => k))
  (at level 100, right associativity) : transfer_scope.
Local Open Scope transfer_scope.

(** A call of a collaborator that returns or raises. *)
Definition call {A} (r : exn + A) : M A :=
  match r with
  | inr a => ret a
  | inl e => raise e
  end.

(** Updates of one field of the world. *)
Definition add_call (c : S3Call) (w : World) : World :=
  {| objects := objects w; s3_calls := s3_calls w ++ [c];
     dispatched := dispatched w; log := log w |}.

Definition add_chunk (ids : list string) (w : World) : World :=
  {| objects := objects w; s3_calls := s3_calls w;
     dispatched := dispatched w ++ [ids]; log := log w |}.

Definition add_line (line : string) (w : World) : World :=
  {| objects := objects w; s3_calls := s3_calls w;
     dispatched := dispatched w; log := log w ++ [line] |}.

Definition set_object (bk : string * string) (content : string) (w : World) : World :=
  {| objects := <[bk := content]> (objects w); s3_calls := s3_calls w;
     dispatched := dispatched w; log := log w |}.

Definition record_call (c : S3Call) : M unit := fun w => (Returned tt, add_call c w).

Definition record_chunk (ids : list string) : M unit := fun w => (Returned tt, add_chunk ids w).

(** [logging.info(line)] *)
Definition logging_info (line : string) : M unit := fun w => (Returned tt, add_line line w).

Definition put_object (bk : string * string) (content : string) : M unit :=
  fun w => (Returned tt, set_object bk content w).

Definition get_objects : M (gmap (string * string) string) :=
  fun w => (Returned (objects w), w).

(** [sep.join(l)] *)
Fixpoint join (sep : string) (l : list string) : string :=
  match l with
  | [] => ""
  | [x] => x
  | x :: rest => x +:+ sep +:+ join sep rest
  end.

(** [job.files[0]] *)
Definition first_file (j : Job) : M FileDesc :=
  match files j with
  | f :: _ => ret f
  | [] => raise IndexError
  end.

(** [assert b] *)
Definition assert (b : bool) : M unit :=
  if b then ret tt else raise AssertionError.

Section Transfer.

Variable env : Env.

(** [bucket.Object(key).load()]: a [HeadObject]; a missing object is a
    [ClientError] with code 404. *)
Definition load (bucket key : string) : M unit :=
  record_call (HeadObject bucket key) ;;;
  match head_fault env bucket key with
  | Some e => raise e
  | None =>
      objs <~ get_objects ;;
      match objs !! (bucket, key) with
      | Some _ => ret tt
      | None => raise (ClientError "404")
      end
  end.

(** [bucket.copy(source, key)]: a server-side copy of the source object;
    a missing source is a [ClientError].  The call is recorded as made,
    whether or not boto3 gets as far as copying. *)
Definition bucket_copy (bucket : string) (source : string * string) (key : string) : M unit :=
  record_call (CopyObject (fst source) (snd source) bucket key) ;;;
  match copy_fault env source (bucket, key) with
  | Some e => raise e
  | None =>
      objs <~ get_objects ;;
      match objs !! source with
      | Some content => put_object (bucket, key) content
      | None => raise (ClientError "404")
      end
  end.

(** [ASFTransfer.object_exists], lines 93-101. *)
Definition object_exists (bucket key : string) : M bool :=
  fun w =>
    match load bucket key w with
    | (Returned _, w') => (Returned true, w')
    | (Raised (ClientError _), w') => (Returned false, w')
    | (Raised e, w') => (Raised e, w')
    | (OutOfFuel, w') => (OutOfFuel, w')
    end.

(** The fields of [self] set by [__init__]; [self.hyp3] is [env]. *)
Record ASFTransfer : Type := {
  target_bucket : string;
  target_bucket_dir : string
}.

Definition msg_processing (j : Job) : string := "Processing " +:+ job_text j.
Definition msg_running (j : Job) : string :=
  "WARNING: Job is still running! Skipping " +:+ job_text j.
Definition msg_center (lat lon : Q) : string :=
  "Image center (lat, lon): (" +:+ str_float env lat +:+ ", " +:+ str_float env lon +:+ ")".
Definition msg_exists (bucket key : string) (j : Job) : string :=
  "WARNING: " +:+ bucket +:+ "/" +:+ key +:+ " already exists! skipping " +:+ job_text j.
Definition msg_copying (source : string * string) (bucket key : string) : string :=
  "Copying " +:+ fst source +:+ "/" +:+ snd source +:+ " to " +:+ bucket +:+ "/" +:+ key.
Definition msg_failed (j : Job) : string := "WARNING: " +:+ job_text j +:+ " failed!".

(** [target_key] of line 127. *)
Definition target_key_of (self : ASFTransfer) (lat lon : Q) (f : FileDesc) : string :=
  point_to_prefix (target_bucket_dir self) lat lon +:+ "/" +:+ f_filename f.

(** [ASFTransfer.copy_granule], lines 103-143. *)
Definition copy_granule (self : ASFTransfer) (job_id : string) : M (list string) :=
  job <~ call (get_job_by_id env job_id) ;;
  let msgs := [msg_processing job] in
  if running job then
    ret (msgs ++ [msg_running job])
  else if succeeded job then
    f0 <~ first_file job ;;
    latlon <~ call (open_dataset env (f_url f0)) ;;
    let lat := fst latlon in
    let lon := snd latlon in
    let msgs := msgs ++ [msg_center lat lon] in
    let source := (f_s3_bucket f0, f_s3_key f0) in
    let target_key := target_key_of self lat lon f0 in
    let bucket := target_bucket self in
    present <~ object_exists bucket target_key ;;
    if present then
      ret (msgs ++ [msg_exists bucket target_key job])
    else
      bucket_copy bucket source target_key ;;;
      ret (msgs ++ [msg_copying source bucket target_key])
  else
    ret (msgs ++ [msg_failed job]).

(** [dask.compute(tasks, scheduler="processes", num_workers=8)]: the
    results come in submission order, and an exception of a task is
    raised again by [compute], which then returns no result at all.
    The worker processes are not modelled: the tasks run here one
    after the other, in submission order. *)
Fixpoint dask_compute {A} (tasks : list (M A)) : M (list A) :=
  match tasks with
  | [] => ret []
  | t :: rest =>
      r <~ t ;;
      rs <~ dask_compute rest ;;
      ret (r :: rs)
  end.

(** Lines 87-88. *)
Fixpoint log_results (results : list (list string)) : M unit :=
  match results with
  | [] => ret tt
  | each_result :: rest =>
      logging_info (join "-->" each_result) ;;; log_results rest
  end.

(** The [while] loop of lines 72-91; [fuel] bounds the number of
    iterations. *)
Fixpoint run_loop (fuel : nat) (self : ASFTransfer) (job_ids : list string)
    (chunks_to_copy num_to_copy start : Z) : M unit :=
  if num_to_copy >? 0 then
    match fuel with
    | O => fun w => (OutOfFuel, w)
    | S fuel' =>
        let num_tasks :=
          if num_to_copy >? chunks_to_copy then chunks_to_copy else num_to_copy in
        logging_info ("Starting tasks " +:+ Py.str_int start +:+ ":" +:+
                      Py.str_int (start + num_tasks)) ;;;
        let ids := Py.slice job_ids start (start + num_tasks) in
        let tasks := map (copy_granule self) ids in
        assert (Z.of_nat (length tasks) =? num_tasks) ;;;
        record_chunk ids ;;;
        results <~ dask_compute tasks ;;
        log_results results ;;;
        run_loop fuel' self job_ids chunks_to_copy
                 (num_to_copy - num_tasks) (start + num_tasks)
    end
  else ret tt.

(** [ASFTransfer.run], lines 62-91, from the parsed list of job ids. *)
Definition run (fuel : nat) (self : ASFTransfer) (job_ids : list string)
    (chunks_to_copy : Z) : M unit :=
  let num_to_copy := Z.of_nat (length job_ids) in
  let start := 0 in
  logging_info (Py.str_int num_to_copy +:+ " granules to copy...") ;;;
  run_loop fuel self job_ids chunks_to_copy num_to_copy start.

End Transfer.


(** *** Vocabulary of the specification of the task *)

(** [collaborator_raises env self job_id w e]: one of the calls that
    [copy_granule self job_id] makes in world [w] raises [e], and it is
    not a [ClientError] of the existence check's [load]. *)
Inductive collaborator_raises (env : Env) (self : ASFTransfer) (job_id : string)
    (w : World) : exn -> Prop :=
| lookup_raises e :
    get_job_by_id env job_id = inl e ->
    collaborator_raises env self job_id w e
| first_file_missing job :
    get_job_by_id env job_id = inr job -> succeeded job = true ->
    files job = [] ->
    collaborator_raises env self job_id w IndexError
| reader_raises job f rest e :
    get_job_by_id env job_id = inr job -> succeeded job = true ->
    files job = f :: rest -> open_dataset env (f_url f) = inl e ->
    collaborator_raises env self job_id w e
| head_raises job f rest lat lon e :
    get_job_by_id env job_id = inr job -> succeeded job = true ->
    files job = f :: rest -> open_dataset env (f_url f) = inr (lat, lon) ->
    head_fault env (target_bucket self) (target_key_of self lat lon f) = Some e ->
    (forall code, e <> ClientError code) ->
    collaborator_raises env self job_id w e
| copy_raises job f rest lat lon e :
    get_job_by_id env job_id = inr job -> succeeded job = true ->
    files job = f :: rest -> open_dataset env (f_url f) = inr (lat, lon) ->
    fst (object_exists env (target_bucket self) (target_key_of self lat lon f) w)
      = Returned false ->
    fst (bucket_copy env (target_bucket self) (f_s3_bucket f, f_s3_key f)
           (target_key_of self lat lon f)
           (add_call (HeadObject (target_bucket self) (target_key_of self lat lon f)) w))
      = Raised e ->
    collaborator_raises env self job_id w e.

(** The four traces with which the task returns. *)
Inductive task_trace (env : Env) (self : ASFTransfer) (job : Job) : list string -> Prop :=
| trace_running :
    running job = true ->
    task_trace env self job [msg_processing job; msg_running job]
| trace_failed :
    failed job = true ->
    task_trace env self job [msg_processing job; msg_failed job]
| trace_present f rest lat lon :
    succeeded job = true -> files job = f :: rest ->
    open_dataset env (f_url f) = inr (lat, lon) ->
    task_trace env self job
      [msg_processing job; msg_center env lat lon;
       msg_exists (target_bucket self) (target_key_of self lat lon f) job]
| trace_copied f rest lat lon :
    succeeded job = true -> files job = f :: rest ->
    open_dataset env (f_url f) = inr (lat, lon) ->
    task_trace env self job
      [msg_processing job; msg_center env lat lon;
       msg_copying (f_s3_bucket f, f_s3_key f) (target_bucket self)
         (target_key_of self lat lon f)].

(** *** A job service that lists the first file only *)

Definition keep_first_file (j : Job) : Job :=
  {| job_text := job_text j; status_code := status_code j; files := firstn 1 (files j) |}.

(** [first_files_only env]: the collaborators of [env], except that every
    job comes back with its first output file alone. *)
Definition first_files_only (env : Env) : Env :=
  {| get_job_by_id := fun id =>
       match get_job_by_id env id with
       | inl e => inl e
       | inr j => inr (keep_first_file j)
       end;
     open_dataset := open_dataset env;
     head_fault := head_fault env;
     copy_fault := copy_fault env;
     str_float := str_float env |}.

(** *** Vocabulary of the specification of the orchestrator *)

(** [ceil(a/b)] for a positive [b]. *)
Definition ceil_div (a b : Z) : Z := (a + b - 1) / b.

(** [chunked C l chunks]: [chunks] cuts [l] into consecutive windows of
    [C] elements, the last of which may be shorter but is not empty. *)
Inductive chunked {A : Type} (C : Z) : list A -> list (list A) -> Prop :=
| chunked_done : chunked C [] []
| chunked_last c :
    c <> [] -> Z.of_nat (length c) <= C -> chunked C c [c]
| chunked_full c rest chunks :
    Z.of_nat (length c) = C -> rest <> [] -> chunked C rest chunks ->
    chunked C (c ++ rest) (c :: chunks).

(** [add_lines lines w]: [w] after [logging.info] of each line, in order. *)
Definition add_lines (lines : list string) (w : World) : World :=
  fold_left (fun w0 line => add_line line w0) lines w.

(** The announcement of line 75. *)
Definition starting_line (start stop : Z) : string :=
  "Starting tasks " +:+ Py.str_int start +:+ ":" +:+ Py.str_int stop.

(** [tasks_ran env self ids w results w']: from [w], [copy_granule] ran
    for every id of [ids], each exactly once and in this order, every
    execution returned, [results] are the traces and [w'] is the world
    they left. *)
Inductive tasks_ran (env : Env) (self : ASFTransfer) :
    list string -> World -> list (list string) -> World -> Prop :=
| tasks_ran_nil w : tasks_ran env self [] w [] w
| tasks_ran_cons id ids w msgs w1 results w2 :
    copy_granule env self id w = (Returned msgs, w1) ->
    tasks_ran env self ids w1 results w2 ->
    tasks_ran env self (id :: ids) w (msgs :: results) w2.

(** [chunks_ran env self start chunks w w']: one iteration of the loop
    for each chunk, the first starting at index [start]: the chunk is
    announced and handed to [dask.compute], the task of each of its ids
    runs and returns, and the traces are logged, one line each, before
    the next chunk starts. *)
Inductive chunks_ran (env : Env) (self : ASFTransfer) :
    Z -> list (list string) -> World -> World -> Prop :=
| chunks_ran_nil start w : chunks_ran env self start [] w w
| chunks_ran_cons start ids chunks w results w1 w2 :
    tasks_ran env self ids
      (add_chunk ids (add_line (starting_line start (start + Z.of_nat (length ids))) w))
      results w1 ->
    chunks_ran env self (start + Z.of_nat (length ids)) chunks
      (add_lines (map (join "-->") results) w1) w2 ->
    chunks_ran env self start (ids :: chunks) w w2.

(** ** A concrete scene, used to run the model *)

Module Scene.

Definition granule : FileDesc :=
  {| f_url := "https://hyp3.example/a/granule.nc";
     f_filename := "granule.nc";
     f_s3_bucket := "hyp3-contentbucket";
     f_s3_key := "a/granule.nc" |}.

Definition job_of (name : string) (st : StatusCode) (fs : list FileDesc) : Job :=
  {| job_text := "HyP3 AUTORIFT job " +:+ name; status_code := st; files := fs |}.

(** Four jobs are known to the service; any other id is an error. *)
Definition lookup (id : string) : exn + Job :=
  if String.eqb id "run" then inr (job_of id RUNNING [])
  else if String.eqb id "ok" then inr (job_of id SUCCEEDED [granule])
  else if String.eqb id "bad" then inr (job_of id FAILED [])
  else if String.eqb id "nofile" then inr (job_of id SUCCEEDED [])
  else inl (OtherError "HyP3Error").

Definition reader (url : string) : exn + (Q * Q) :=
  if String.eqb url (f_url granule) then inr (78.3%Q, (-123.7)%Q)
  else inl (OtherError "FileNotFoundError").

(** The text of the two coordinates of [granule]. *)
Definition show (q : Q) : string :=
  if Qeq_bool q 78.3 then "78.3"
  else if Qeq_bool q (-123.7) then "-123.7"
  else "?".

(** Every collaborator works. *)
Definition healthy : Env :=
  {| get_job_by_id := lookup;
     open_dataset := reader;
     head_fault := fun _ _ => None;
     copy_fault := fun _ _ => None;
     str_float := show |}.

(** [HeadObject] on the destination bucket is denied; copies work. *)
Definition head_denied : Env :=
  {| get_job_by_id := lookup;
     open_dataset := reader;
     head_fault := fun _ _ => Some (ClientError "403");
     copy_fault := fun _ _ => None;
     str_float := show |}.

(** The destination bucket refuses the copy. *)
Definition copy_denied : Env :=
  {| get_job_by_id := lookup;
     open_dataset := reader;
     head_fault := fun _ _ => None;
     copy_fault := fun _ _ => Some (ClientError "AccessDenied");
     str_float := show |}.

Definition transfer : ASFTransfer :=
  {| target_bucket := "its-live-data"; target_bucket_dir := "velocity_image_pair" |}.

Definition target : string * string :=
  ("its-live-data", "velocity_image_pair/N70W120/granule.nc").

(** The source object is staged; the destination bucket is empty. *)
Definition fresh : World :=
  {| objects := {[ ("hyp3-contentbucket", "a/granule.nc") := "new bytes" ]};
     s3_calls := []; dispatched := []; log := [] |}.

(** As [fresh], with an older object already at the target key. *)
Definition occupied : World :=
  {| objects := <[ target := "old bytes" ]> (objects fresh);
     s3_calls := []; dispatched := []; log := [] |}.

End Scene.

(** * Proofs *)

(** ** The spatial prefix resolver *)

Lemma bin10_eq (v : Q) :
  bin10 v = 10 * (Z.abs (Qnum v) / (10 * Zpos (Qden v))).
Proof.
  destruct v as [n d]. unfold bin10, Py.np_trunc, Qdiv, Qmult, Qinv, Qabs.
  cbn [Qnum Qden]. rewrite Z.mul_1_r, Pos2Z.inj_mul.
  rewrite Z.quot_div_nonneg by lia. f_equal. f_equal. lia.
Qed.

Lemma bin10_abs_first (v : Q) :
  bin10 v = 10 * Py.np_trunc (Qabs v / 10).
Proof.
  rewrite bin10_eq. destruct v as [n d].
  unfold Py.np_trunc, Qdiv, Qmult, Qinv, Qabs.
  cbn [Qnum Qden]. rewrite Z.mul_1_r, Pos2Z.inj_mul.
  rewrite Z.quot_div_nonneg by lia. f_equal. f_equal. lia.
Qed.

Lemma Qabs_le_num (v : Q) (k : Z) :
  (- inject_Z k <= v)%Q -> (v <= inject_Z k)%Q -> Z.abs (Qnum v) <= k * Zpos (Qden v).
Proof.
  destruct v as [n d]. unfold Qle, inject_Z, Qopp. cbn [Qnum Qden]. lia.
Qed.

Lemma bin10_bounds (v : Q) (k : Z) :
  0 <= k -> (- inject_Z (10 * k) <= v)%Q -> (v <= inject_Z (10 * k))%Q ->
  exists q, bin10 v = 10 * q /\ 0 <= q <= k.
Proof.
  intros Hk Hlo Hhi. pose proof (Qabs_le_num v (10 * k) Hlo Hhi) as Hn.
  exists (Z.abs (Qnum v) / (10 * Zpos (Qden v))). split; [apply bin10_eq|].
  split.
  - apply Z.div_pos; lia.
  - apply Z.div_le_upper_bound; lia.
Qed.

(** The bin is the largest multiple of ten that does not exceed [|v|]. *)
Lemma bin10_floor (v : Q) :
  bin10 v mod 10 = 0 /\
  (inject_Z (bin10 v) <= Qabs v)%Q /\ (Qabs v < inject_Z (bin10 v + 10))%Q.
Proof.
  rewrite bin10_eq. destruct v as [n d]. cbn [Qnum Qden].
  set (a := Z.abs n). set (b := 10 * Z.pos d).
  assert (Hb : 0 < b) by (subst b; lia).
  pose proof (Z.div_mod a b ltac:(lia)) as Hdm.
  pose proof (Z.mod_pos_bound a b Hb) as Hr.
  split; [| split].
  - rewrite Z.mul_comm. apply Z.mod_mul. lia.
  - unfold Qle, Qabs, inject_Z. cbn [Qnum Qden]. fold a. subst b. nia.
  - unfold Qlt, Qabs, inject_Z. cbn [Qnum Qden]. fold a. subst b. nia.
Qed.

(** Two representations of the same rational fall in the same bin. *)
Lemma bin10_Qeq (v v' : Q) : (v == v')%Q -> bin10 v = bin10 v'.
Proof.
  intros E. rewrite !bin10_eq. f_equal.
  destruct v as [n d], v' as [n' d']. unfold Qeq in E. cbn [Qnum Qden] in *.
  assert (E' : Z.abs n * Z.pos d' = Z.abs n' * Z.pos d) by lia.
  rewrite <- (Z.div_mul_cancel_r (Z.abs n) (10 * Z.pos d) (Z.pos d')) by lia.
  rewrite <- (Z.div_mul_cancel_r (Z.abs n') (10 * Z.pos d') (Z.pos d)) by lia.
  rewrite E'. f_equal. lia.
Qed.

Lemma cell_name_Qeq (lat lat' lon lon' : Q) :
  (lat == lat')%Q -> (lon == lon')%Q -> cell_name lat lon = cell_name lat' lon'.
Proof.
  intros Ea Eo. unfold cell_name, NShemi_str, EWhemi_str, outlat, outlon.
  rewrite (bin10_Qeq _ _ Ea), (bin10_Qeq _ _ Eo).
  rewrite (Qleb_comp 0%Q 0%Q (Qeq_refl 0) lat lat' Ea).
  rewrite (Qleb_comp 0%Q 0%Q (Qeq_refl 0) lon lon' Eo).
  reflexivity.
Qed.

(** A boolean property checked on [0 .. k-1] holds on that range. *)
Lemma Z_range_check (P : Z -> bool) (k : nat) :
  forallb P (map Z.of_nat (seq 0 k)) = true ->
  forall n, 0 <= n < Z.of_nat k -> P n = true.
Proof.
  intros H n Hn. rewrite forallb_forall in H. apply H.
  apply in_map_iff. exists (Z.to_nat n). split; [lia|].
  apply in_seq. lia.
Qed.

Lemma format_two_digits (n : Z) : 0 <= n < 100 -> Py.format_0d 2 n = two_digits n.
Proof.
  intros Hn. apply String.eqb_eq.
  apply (Z_range_check (fun n => String.eqb (Py.format_0d 2 n) (two_digits n)) 100);
    [vm_compute; reflexivity | lia].
Qed.

Lemma format_three_digits (n : Z) : 0 <= n < 1000 -> Py.format_0d 3 n = three_digits n.
Proof.
  intros Hn. apply String.eqb_eq.
  apply (Z_range_check (fun n => String.eqb (Py.format_0d 3 n) (three_digits n)) 1000);
    [vm_compute; reflexivity | lia].
Qed.

Lemma digit_char_is_digit (d : Z) : 0 <= d < 10 -> is_digit (digit_char d) = true.
Proof.
  intros Hd.
  apply (Z_range_check (fun d => is_digit (digit_char d)) 10);
    [vm_compute; reflexivity | lia].
Qed.

Lemma outlat_range (lat : Q) : in_lat_domain lat -> 0 <= outlat lat <= 80.
Proof.
  intros [Hlo Hhi].
  destruct (bin10_bounds lat 9 ltac:(lia) Hlo Hhi) as (q & Hq & Hr).
  unfold outlat. rewrite Hq. destruct (10 * q =? 90) eqn:E; lia.
Qed.

Lemma outlon_range (lon : Q) : in_lon_domain lon -> 0 <= outlon lon <= 170.
Proof.
  intros [Hlo Hhi].
  destruct (bin10_bounds lon 18 ltac:(lia) Hlo Hhi) as (q & Hq & Hr).
  unfold outlon. rewrite Hq. destruct (180 <=? 10 * q) eqn:E; lia.
Qed.

Lemma cell_name_digits (lat lon : Q) :
  in_lat_domain lat -> in_lon_domain lon ->
  cell_name lat lon =
    NShemi_str lat +:+ two_digits (outlat lat) +:+ EWhemi_str lon +:+ three_digits (outlon lon).
Proof.
  intros Ha Ho. unfold cell_name.
  pose proof (outlat_range lat Ha). pose proof (outlon_range lon Ho).
  rewrite format_two_digits, format_three_digits by lia. reflexivity.
Qed.

Lemma cell_name_matches (lat lon : Q) :
  in_lat_domain lat -> in_lon_domain lon -> matches_cell (cell_name lat lon) = true.
Proof.
  intros Ha Ho. rewrite cell_name_digits by assumption.
  pose proof (outlat_range lat Ha) as Ra. pose proof (outlon_range lon Ho) as Ro.
  assert (Da : is_digit (digit_char (outlat lat / 10)) = true)
    by (apply digit_char_is_digit; split;
        [apply Z.div_pos | apply Z.div_lt_upper_bound]; lia).
  assert (Db : is_digit (digit_char (outlat lat mod 10)) = true)
    by (apply digit_char_is_digit, Z.mod_pos_bound; lia).
  assert (Dx : is_digit (digit_char (outlon lon / 100)) = true)
    by (apply digit_char_is_digit; split;
        [apply Z.div_pos | apply Z.div_lt_upper_bound]; lia).
  assert (Dy : is_digit (digit_char (outlon lon mod 100 / 10)) = true).
  { pose proof (Z.mod_pos_bound (outlon lon) 100 ltac:(lia)).
    apply digit_char_is_digit; split;
      [apply Z.div_pos | apply Z.div_lt_upper_bound]; lia. }
  assert (Dz : is_digit (digit_char ((outlon lon mod 100) mod 10)) = true)
    by (apply digit_char_is_digit, Z.mod_pos_bound; lia).
  unfold NShemi_str, EWhemi_str, three_digits, two_digits.
  destruct (Qle_bool 0 lat), (Qle_bool 0 lon);
    cbv [String.append matches_cell]; rewrite Da, Db, Dx, Dy, Dz; reflexivity.
Qed.

Lemma append_assoc (a b c : string) : (a +:+ b) +:+ c = a +:+ b +:+ c.
Proof.
  induction a as [|x a IH]; cbv [String.append]; fold String.append;
    [reflexivity | rewrite IH; reflexivity].
Qed.

Lemma cell_name_relative (lat lon : Q) : String.prefix "/" (cell_name lat lon) = false.
Proof.
  unfold cell_name, NShemi_str. destruct (Qle_bool 0 lat); reflexivity.
Qed.

Lemma os_path_join_relative (a b : string) :
  String.prefix "/" b = false ->
  Py.os_path_join a b =
    (if (String.eqb a "" || Py.endswith_char a "/")%bool then a else a +:+ "/") +:+ b.
Proof.
  intros Hb. unfold Py.os_path_join. rewrite Hb.
  destruct (String.eqb a "" || Py.endswith_char a "/")%bool;
    [reflexivity | symmetry; apply append_assoc].
Qed.

Lemma hemisphere_letters (v : Q) (pos neg : string) :
  ((0 <= v)%Q -> (if Qle_bool 0 v then pos else neg) = pos) /\
  ((v < 0)%Q -> (if Qle_bool 0 v then pos else neg) = neg).
Proof.
  destruct (Qle_bool 0 v) eqn:E; split; intros H; try reflexivity.
  - apply Qle_bool_iff in E. exfalso. apply (Qlt_not_le _ _ H E).
  - apply Qle_bool_iff in H. congruence.
Qed.

(** C4: on the coordinate domain the resolver returns [dir_path] joined
    (by [os.path.join]) with a cell name that matches
    [[NS]\d{2}[EW]\d{3}]: N when [lat >= 0] else S, the latitude bin on two
    digits, E when [lon >= 0] else W, the longitude bin on three digits.
    The result depends on the values of its arguments only: equal
    coordinates give the same string. *)
Theorem point_to_prefix_format (dir_path : string) (lat lon : Q) :
  in_lat_domain lat -> in_lon_domain lon ->
  let cell := cell_name lat lon in
  point_to_prefix dir_path lat lon = Py.os_path_join dir_path cell
  /\ point_to_prefix dir_path lat lon =
       (if (String.eqb dir_path "" || Py.endswith_char dir_path "/")%bool
        then dir_path else dir_path +:+ "/") +:+ cell
  /\ matches_cell cell = true
  /\ cell = NShemi_str lat +:+ two_digits (outlat lat) +:+
            EWhemi_str lon +:+ three_digits (outlon lon)
  /\ ((0 <= lat)%Q -> NShemi_str lat = "N") /\ ((lat < 0)%Q -> NShemi_str lat = "S")
  /\ ((0 <= lon)%Q -> EWhemi_str lon = "E") /\ ((lon < 0)%Q -> EWhemi_str lon = "W")
  /\ (forall lat' lon', (lat' == lat)%Q -> (lon' == lon)%Q ->
        point_to_prefix dir_path lat' lon' = point_to_prefix dir_path lat lon).
Proof.
  intros Ha Ho cell. subst cell.
  split; [reflexivity|].
  split; [apply os_path_join_relative, cell_name_relative|].
  split; [apply cell_name_matches; assumption|].
  split; [apply cell_name_digits; assumption|].
  split; [apply hemisphere_letters|]. split; [apply hemisphere_letters|].
  split; [apply hemisphere_letters|]. split; [apply hemisphere_letters|].
  intros lat' lon' Ea Eo. unfold point_to_prefix.
  rewrite (cell_name_Qeq lat' lat lon' lon Ea Eo). reflexivity.
Qed.

Lemma point_to_prefix_format_witness :
  in_lat_domain (-45.25) /\ in_lon_domain 7 /\
  point_to_prefix "velocity_image_pair" (-45.25) 7 = "velocity_image_pair/S40E000" /\
  matches_cell (cell_name (-45.25) 7) = true.
Proof.
  assert (Ha : in_lat_domain (-45.25)) by (split; unfold Qle; simpl; lia).
  assert (Ho : in_lon_domain 7) by (split; unfold Qle; simpl; lia).
  pose proof (point_to_prefix_format "velocity_image_pair" (-45.25) 7 Ha Ho) as T.
  cbv zeta in T. destruct T as (_ & T2 & T3 & _).
  split; [exact Ha|]. split; [exact Ho|]. split; [rewrite T2; reflexivity | exact T3].
Defined.

(** C2, as amended: on the domain each bin is ten times [|value|/10]
    truncated toward zero, a multiple of ten in [[0,90]] for a latitude
    and [[0,180]] for a longitude before clamping; and
    [point_to_prefix base 78.3 (-123.7)] is [os.path.join(base, "N70W120")],
    which is [base/N70W120] when [base] is not empty and has no trailing
    slash. *)
Theorem bin10_truncates (base : string) (lat lon : Q) :
  in_lat_domain lat -> in_lon_domain lon ->
  (bin10 lat = 10 * Py.np_trunc (Qabs lat / 10)
   /\ bin10 lat mod 10 = 0
   /\ (inject_Z (bin10 lat) <= Qabs lat)%Q /\ (Qabs lat < inject_Z (bin10 lat + 10))%Q
   /\ 0 <= bin10 lat <= 90)
  /\ (bin10 lon = 10 * Py.np_trunc (Qabs lon / 10)
      /\ bin10 lon mod 10 = 0
      /\ (inject_Z (bin10 lon) <= Qabs lon)%Q /\ (Qabs lon < inject_Z (bin10 lon + 10))%Q
      /\ 0 <= bin10 lon <= 180)
  /\ point_to_prefix base 78.3 (-123.7) = Py.os_path_join base "N70W120"
  /\ (base <> "" -> Py.endswith_char base "/" = false ->
      point_to_prefix base 78.3 (-123.7) = base +:+ "/N70W120").
Proof.
  intros [Alo Ahi] [Olo Ohi].
  destruct (bin10_bounds lat 9 ltac:(lia) Alo Ahi) as (qa & Hqa & Ra).
  destruct (bin10_bounds lon 18 ltac:(lia) Olo Ohi) as (qo & Hqo & Ro).
  pose proof (bin10_floor lat) as (Ma & La & Ua).
  pose proof (bin10_floor lon) as (Mo & Lo & Uo).
  split; [|split; [|split]].
  - repeat split; try assumption; try lia. apply bin10_abs_first.
  - repeat split; try assumption; try lia. apply bin10_abs_first.
  - reflexivity.
  - intros Hne Hend. unfold point_to_prefix.
    change (cell_name 78.3 (-123.7)) with "N70W120".
    rewrite os_path_join_relative by reflexivity.
    destruct (String.eqb_spec base ""); [contradiction|].
    rewrite Hend. cbn [orb]. apply append_assoc.
Qed.

Lemma bin10_truncates_witness :
  bin10 78.3 = 70 /\ bin10 (-123.7) = 120 /\
  point_to_prefix "velocity_image_pair" 78.3 (-123.7) = "velocity_image_pair/N70W120".
Proof.
  assert (Ha : in_lat_domain 78.3) by (split; unfold Qle; simpl; lia).
  assert (Ho : in_lon_domain (-123.7)) by (split; unfold Qle; simpl; lia).
  pose proof (bin10_truncates "velocity_image_pair" 78.3 (-123.7) Ha Ho) as (_ & _ & _ & T).
  split; [reflexivity|]. split; [reflexivity|].
  apply T; [discriminate | reflexivity].
Defined.

(** C2 as stated fails: with an empty base, or a base that ends with a
    slash, [os.path.join] adds no separator, so the result is not
    [base/N70W120]. *)
Lemma point_to_prefix_no_extra_slash :
  point_to_prefix "" 78.3 (-123.7) = "N70W120"
  /\ point_to_prefix "" 78.3 (-123.7) <> "" +:+ "/N70W120"
  /\ point_to_prefix "velocity_image_pair/" 78.3 (-123.7) = "velocity_image_pair/N70W120"
  /\ point_to_prefix "velocity_image_pair/" 78.3 (-123.7) <> "velocity_image_pair/" +:+ "/N70W120".
Proof.
  repeat split; try reflexivity; vm_compute; discriminate.
Qed.

(** C3: at the boundaries the bins are clamped.  Latitude 90 has raw bin
    90 and final bin 80; latitude -90 gives a cell that starts with S80;
    longitude 180 and -180 have raw bin 180 and final bin 170; and any
    longitude whose raw bin is at least 180 gets 170. *)
Theorem boundary_bins_clamped (lat lon v : Q) :
  ((lat == 90)%Q -> bin10 lat = 90 /\ outlat lat = 80)
  /\ ((lat == -90)%Q ->
      outlat lat = 80 /\
      cell_name lat v = "S80" +:+ EWhemi_str v +:+ Py.format_0d 3 (outlon v))
  /\ ((lon == 180)%Q \/ (lon == -180)%Q -> bin10 lon = 180 /\ outlon lon = 170)
  /\ (180 <= bin10 v -> outlon v = 170).
Proof.
  split; [|split; [|split]].
  - intros E. unfold outlat. rewrite (bin10_Qeq _ _ E). split; reflexivity.
  - intros E. rewrite (cell_name_Qeq lat (-90) v v E (Qeq_refl v)).
    unfold outlat. rewrite (bin10_Qeq _ _ E). split; reflexivity.
  - intros [E|E]; unfold outlon; rewrite (bin10_Qeq _ _ E); split; reflexivity.
  - intros H. unfold outlon. destruct (180 <=? bin10 v) eqn:E; [reflexivity | lia].
Qed.

Lemma boundary_bins_clamped_witness :
  outlat 90 = 80 /\ cell_name (-90) 185.5 = "S80E170" /\ outlon (-180) = 170 /\
  180 <= bin10 185.5 /\ outlon 185.5 = 170.
Proof.
  pose proof (boundary_bins_clamped 90 (-180) 185.5) as (T1 & _ & T3 & T4).
  pose proof (boundary_bins_clamped (-90) 180 185.5) as (_ & T2 & _ & _).
  assert (H : 180 <= bin10 185.5) by (vm_compute; discriminate).
  split; [apply T1; reflexivity|].
  split; [rewrite (proj2 (T2 ltac:(reflexivity))); reflexivity|].
  split; [apply T3; right; reflexivity|].
  split; [exact H | exact (T4 H)].
Defined.

(** The helpers on the values Python gives. *)
Example format_0d_examples :
  Py.format_0d 2 0 = "00" /\ Py.format_0d 2 80 = "80" /\ Py.format_0d 3 70 = "070"
  /\ Py.format_0d 3 170 = "170" /\ Py.format_0d 2 1000 = "1000" /\ Py.format_0d 3 (-5) = "-05".
Proof. repeat split; reflexivity. Qed.

Example os_path_join_examples :
  Py.os_path_join "a/b" "N70W120" = "a/b/N70W120"
  /\ Py.os_path_join "a/b/" "N70W120" = "a/b/N70W120"
  /\ Py.os_path_join "" "N70W120" = "N70W120"
  /\ Py.os_path_join "a" "/abs" = "/abs".
Proof. repeat split; reflexivity. Qed.

Example slice_examples :
  Py.slice ["a"; "b"; "c"; "d"; "e"] 0 2 = ["a"; "b"]
  /\ Py.slice ["a"; "b"; "c"; "d"; "e"] 4 6 = ["e"]
  /\ Py.slice ["a"; "b"; "c"; "d"; "e"] 0 (-1) = ["a"; "b"; "c"; "d"]
  /\ Py.slice ["a"; "b"; "c"; "d"; "e"] 3 1 = [].
Proof. repeat split; reflexivity. Qed.

Example point_to_prefix_examples :
  point_to_prefix "d" 78.3 (-123.7) = "d/N70W120"
  /\ point_to_prefix "d" 0 0 = "d/N00E000"
  /\ point_to_prefix "d" (-0.5) (-9.99) = "d/S00W000"
  /\ point_to_prefix "d" 89.99 179.99 = "d/N80E170"
  /\ point_to_prefix "d" (-90) 180 = "d/S80E170".
Proof. repeat split; reflexivity. Qed.

(** ** The store operations *)

Section StoreOps.

Variable env : Env.

Lemma load_run (bucket key : string) (w : World) :
  load env bucket key w =
    (match head_fault env bucket key with
     | Some e => Raised e
     | None => match objects w !! (bucket, key) with
               | Some _ => Returned tt
               | None => Raised (ClientError "404")
               end
     end, add_call (HeadObject bucket key) w).
Proof.
  unfold load, bind, record_call, get_objects, raise, ret.
  destruct (head_fault env bucket key); [reflexivity|].
  cbn [objects add_call]. destruct (objects w !! (bucket, key)); reflexivity.
Qed.

Lemma object_exists_run (bucket key : string) (w : World) :
  object_exists env bucket key w =
    (match head_fault env bucket key with
     | Some (ClientError _) => Returned false
     | Some e => Raised e
     | None => match objects w !! (bucket, key) with
               | Some _ => Returned true
               | None => Returned false
               end
     end, add_call (HeadObject bucket key) w).
Proof.
  unfold object_exists. rewrite load_run.
  destruct (head_fault env bucket key) as [[]|]; try reflexivity.
  destruct (objects w !! (bucket, key)); reflexivity.
Qed.

Lemma bucket_copy_run (bucket : string) (source : string * string) (key : string) (w : World) :
  bucket_copy env bucket source key w =
    let w1 := add_call (CopyObject (fst source) (snd source) bucket key) w in
    match copy_fault env source (bucket, key) with
    | Some e => (Raised e, w1)
    | None => match objects w !! source with
              | Some content => (Returned tt, set_object (bucket, key) content w1)
              | None => (Raised (ClientError "404"), w1)
              end
    end.
Proof.
  unfold bucket_copy, bind, record_call, get_objects, raise, ret, put_object.
  destruct (copy_fault env source (bucket, key)); [reflexivity|].
  cbn [objects add_call]. destruct (objects w !! source); reflexivity.
Qed.

(** C10: [object_exists] answers [False] whenever [load] raises a
    [ClientError], whatever its code, and [True] when [load] returns;
    it never lets a [ClientError] out; and a failed [HeadObject] on an
    object that is there gives the very result that an absent object
    gives.  (An exception of [load] that is not a [ClientError] is not
    caught.) *)
Theorem object_exists_masks_client_errors (bucket key : string) (w : World) :
  (forall code w', load env bucket key w = (Raised (ClientError code), w') ->
     object_exists env bucket key w = (Returned false, w'))
  /\ (forall w', load env bucket key w = (Returned tt, w') ->
        object_exists env bucket key w = (Returned true, w'))
  /\ (forall code, fst (object_exists env bucket key w) <> Raised (ClientError code))
  /\ (forall code, head_fault env bucket key = Some (ClientError code) ->
        object_exists env bucket key w = (Returned false, add_call (HeadObject bucket key) w))
  /\ (head_fault env bucket key = None -> objects w !! (bucket, key) = None ->
        object_exists env bucket key w = (Returned false, add_call (HeadObject bucket key) w))
  /\ (head_fault env bucket key = None -> is_Some (objects w !! (bucket, key)) ->
        object_exists env bucket key w = (Returned true, add_call (HeadObject bucket key) w))
  /\ (forall e w', load env bucket key w = (Raised e, w') ->
        (forall code, e <> ClientError code) ->
        object_exists env bucket key w = (Raised e, w')).
Proof.
  split; [|split; [|split; [|split; [|split; [|split]]]]].
  - intros code w' H. unfold object_exists. rewrite H. reflexivity.
  - intros w' H. unfold object_exists. rewrite H. reflexivity.
  - intros code. rewrite object_exists_run. cbn [fst].
    destruct (head_fault env bucket key) as [[]|]; try discriminate.
    destruct (objects w !! (bucket, key)); discriminate.
  - intros code H. rewrite object_exists_run, H. reflexivity.
  - intros H1 H2. rewrite object_exists_run, H1, H2. reflexivity.
  - intros H1 [c H2]. rewrite object_exists_run, H1, H2. reflexivity.
  - intros e w' H Hne. unfold object_exists. rewrite H.
    destruct e; try reflexivity. exfalso. exact (Hne code eq_refl).
Qed.

End StoreOps.

Lemma object_exists_masks_client_errors_witness :
  is_Some (objects Scene.occupied !! Scene.target)
  /\ fst (load Scene.head_denied (fst Scene.target) (snd Scene.target) Scene.occupied)
       = Raised (ClientError "403")
  /\ fst (object_exists Scene.head_denied (fst Scene.target) (snd Scene.target) Scene.occupied)
       = Returned false
  /\ fst (object_exists Scene.healthy (fst Scene.target) (snd Scene.target) Scene.occupied)
       = Returned true
  /\ fst (object_exists Scene.healthy (fst Scene.target) (snd Scene.target) Scene.fresh)
       = Returned false.
Proof.
  pose proof (object_exists_masks_client_errors Scene.head_denied
                (fst Scene.target) (snd Scene.target) Scene.occupied) as (_ & _ & _ & D & _).
  pose proof (object_exists_masks_client_errors Scene.healthy
                (fst Scene.target) (snd Scene.target) Scene.occupied) as (_ & _ & _ & _ & _ & P & _).
  pose proof (object_exists_masks_client_errors Scene.healthy
                (fst Scene.target) (snd Scene.target) Scene.fresh) as (_ & _ & _ & _ & A & _).
  assert (Hocc : is_Some (objects Scene.occupied !! Scene.target))
    by (exists "old bytes"; vm_compute; reflexivity).
  split; [exact Hocc|].
  split; [vm_compute; reflexivity|].
  split; [rewrite (D "403" eq_refl); reflexivity|].
  split; [rewrite (P eq_refl Hocc); reflexivity|].
  rewrite (A eq_refl ltac:(vm_compute; reflexivity)); reflexivity.
Defined.

(** ** The per-job transfer task *)

Section Task.

Variable env : Env.
Variable self : ASFTransfer.

Lemma succeeded_not_running (job : Job) : succeeded job = true -> running job = false.
Proof. unfold running, complete. intros ->. reflexivity. Qed.

(** The task on a succeeded job whose first file could be read. *)
Lemma copy_granule_succeeded (job_id : string) (job : Job) (f : FileDesc)
    (rest : list FileDesc) (lat lon : Q) (w : World) :
  get_job_by_id env job_id = inr job -> succeeded job = true ->
  files job = f :: rest -> open_dataset env (f_url f) = inr (lat, lon) ->
  let bucket := target_bucket self in
  let key := target_key_of self lat lon f in
  let source := (f_s3_bucket f, f_s3_key f) in
  let msgs := [msg_processing job; msg_center env lat lon] in
  copy_granule env self job_id w =
    match object_exists env bucket key w with
    | (Returned true, w1) => (Returned (msgs ++ [msg_exists bucket key job]), w1)
    | (Returned false, w1) =>
        match bucket_copy env bucket source key w1 with
        | (Returned _, w2) => (Returned (msgs ++ [msg_copying source bucket key]), w2)
        | (Raised e, w2) => (Raised e, w2)
        | (OutOfFuel, w2) => (OutOfFuel, w2)
        end
    | (Raised e, w1) => (Raised e, w1)
    | (OutOfFuel, w1) => (OutOfFuel, w1)
    end.
Proof.
  intros Hjob Hs Hf Hr bucket key source msgs.
  unfold copy_granule, bind, call. rewrite Hjob. cbn [ret].
  rewrite (succeeded_not_running job Hs), Hs.
  unfold first_file. rewrite Hf. cbn [ret]. rewrite Hr. cbn [ret fst snd].
  fold bucket key source.
  destruct (object_exists env bucket key w) as [[[|]| |] w1]; try reflexivity.
Qed.

(** C6: for a job that is still running the task returns the trace
    [Processing ...; WARNING: Job is still running! ...] and leaves the
    world as it found it: no call is issued to the store (no
    [HeadObject], no copy) and no object changes. *)
Theorem running_job_touches_nothing (job_id : string) (job : Job) (w : World) :
  get_job_by_id env job_id = inr job -> running job = true ->
  exists msgs w',
    copy_granule env self job_id w = (Returned msgs, w')
    /\ msgs = [msg_processing job; msg_running job]
    /\ In (msg_running job) msgs
    /\ s3_calls w' = s3_calls w
    /\ objects w' = objects w
    /\ w' = w.
Proof.
  intros Hjob Hrun. exists [msg_processing job; msg_running job], w.
  unfold copy_granule, bind, call. rewrite Hjob. cbn [ret]. rewrite Hrun.
  repeat split; try reflexivity. right. left. reflexivity.
Qed.

(** Whatever the task does, the calls it adds to the history are none,
    one [HeadObject], or one [HeadObject] answered "absent" followed by
    one copy to the key that was checked. *)
Lemma copy_only_after_absent_answer (job_id : string) (w : World) :
  let w' := snd (copy_granule env self job_id w) in
  s3_calls w' = s3_calls w
  \/ exists key,
       let bucket := target_bucket self in
       s3_calls w' = s3_calls w ++ [HeadObject bucket key]
       \/ (exists src_bucket src_key,
             s3_calls w' = s3_calls w ++ [HeadObject bucket key;
                                         CopyObject src_bucket src_key bucket key])
          /\ fst (object_exists env bucket key w) = Returned false.
Proof.
  unfold copy_granule, bind, call.
  destruct (get_job_by_id env job_id) as [e|job]; [left; reflexivity|].
  cbn [ret]. destruct (running job); [left; reflexivity|].
  destruct (succeeded job); [|left; reflexivity].
  unfold first_file. destruct (files job) as [|f rest]; [left; reflexivity|].
  cbn [ret]. destruct (open_dataset env (f_url f)) as [e|[lat lon]]; [left; reflexivity|].
  cbn [ret fst snd]. right. exists (target_key_of self lat lon f). cbn zeta.
  rewrite object_exists_run.
  destruct (head_fault env (target_bucket self) (target_key_of self lat lon f)) as [[]|].
  2-4: left; reflexivity.
  - right. split; [|reflexivity]. rewrite bucket_copy_run. cbn zeta.
    eexists _, _. cbn [objects add_call fst snd].
    destruct (copy_fault env _ _);
      [|destruct (objects w !! (f_s3_bucket f, f_s3_key f))];
      cbn [ret raise fst snd s3_calls add_call set_object]; rewrite <- app_assoc; reflexivity.
  - destruct (objects w !! (target_bucket self, _)); [left; reflexivity|].
    right. split; [|reflexivity]. rewrite bucket_copy_run. cbn zeta.
    eexists _, _. cbn [objects add_call fst snd].
    destruct (copy_fault env _ _);
      [|destruct (objects w !! (f_s3_bucket f, f_s3_key f))];
      cbn [ret raise fst snd s3_calls add_call set_object]; rewrite <- app_assoc; reflexivity.
Qed.

(** X13: what a [ClientError] of [HeadObject] does to an object that is
    already at the target key: the task copies over it. *)
Lemma client_error_then_overwrite (job_id : string) (job : Job) (f : FileDesc)
    (rest : list FileDesc) (lat lon : Q) (code old new : string) (w : World) :
  get_job_by_id env job_id = inr job -> succeeded job = true ->
  files job = f :: rest -> open_dataset env (f_url f) = inr (lat, lon) ->
  let bucket := target_bucket self in
  let key := target_key_of self lat lon f in
  let source := (f_s3_bucket f, f_s3_key f) in
  head_fault env bucket key = Some (ClientError code) ->
  copy_fault env source (bucket, key) = None ->
  objects w !! (bucket, key) = Some old ->
  objects w !! source = Some new ->
  exists w',
    copy_granule env self job_id w =
      (Returned [msg_processing job; msg_center env lat lon;
                 msg_copying source bucket key], w')
    /\ objects w' !! (bucket, key) = Some new.
Proof.
  intros Hjob Hs Hf Hr bucket key source Hh Hc Hold Hsrc.
  eexists. split.
  - rewrite (copy_granule_succeeded job_id job f rest lat lon w Hjob Hs Hf Hr).
    fold bucket key source. rewrite object_exists_run, Hh.
    rewrite bucket_copy_run. cbn zeta. rewrite Hc.
    cbn [objects add_call]. rewrite Hsrc. reflexivity.
  - cbn [objects set_object]. apply lookup_insert_eq.
Qed.

(** C7: two runs in a row for the same succeeded job, on a destination
    where the target key is free and with collaborators that answer
    (the lookup, the reader, [HeadObject] and the copy do not fail):
    the first run copies, the second finds the object and skips, and
    the objects of the store are the same after the second run as
    after the first. *)
Theorem copy_granule_twice (job_id : string) (job : Job) (f : FileDesc)
    (rest : list FileDesc) (lat lon : Q) (content : string) (w : World) :
  get_job_by_id env job_id = inr job -> succeeded job = true ->
  files job = f :: rest -> open_dataset env (f_url f) = inr (lat, lon) ->
  let bucket := target_bucket self in
  let key := target_key_of self lat lon f in
  let source := (f_s3_bucket f, f_s3_key f) in
  head_fault env bucket key = None ->
  copy_fault env source (bucket, key) = None ->
  objects w !! (bucket, key) = None ->
  objects w !! source = Some content ->
  exists w1 w2,
    copy_granule env self job_id w =
      (Returned [msg_processing job; msg_center env lat lon;
                 msg_copying source bucket key], w1)
    /\ copy_granule env self job_id w1 =
         (Returned [msg_processing job; msg_center env lat lon;
                    msg_exists bucket key job], w2)
    /\ objects w1 !! (bucket, key) = Some content
    /\ objects w2 = objects w1
    /\ s3_calls w2 = s3_calls w ++ [HeadObject bucket key;
                                   CopyObject (fst source) (snd source) bucket key;
                                   HeadObject bucket key].
Proof.
  intros Hjob Hs Hf Hr bucket key source Hh Hc Habs Hsrc.
  pose (w1 := set_object (bucket, key) content
                (add_call (CopyObject (fst source) (snd source) bucket key)
                   (add_call (HeadObject bucket key) w))).
  assert (Hnew : objects w1 !! (bucket, key) = Some content)
    by (cbn [w1 objects set_object]; apply lookup_insert_eq).
  exists w1, (add_call (HeadObject bucket key) w1).
  split; [|split; [|split; [|split]]].
  - rewrite (copy_granule_succeeded job_id job f rest lat lon w Hjob Hs Hf Hr).
    fold bucket key source. rewrite object_exists_run, Hh, Habs.
    rewrite bucket_copy_run. cbn zeta. rewrite Hc.
    cbn [objects add_call]. rewrite Hsrc. reflexivity.
  - rewrite (copy_granule_succeeded job_id job f rest lat lon w1 Hjob Hs Hf Hr).
    fold bucket key source. rewrite object_exists_run, Hh, Hnew. reflexivity.
  - exact Hnew.
  - reflexivity.
  - cbn [w1 s3_calls add_call set_object]. rewrite <- !app_assoc. reflexivity.
Qed.

End Task.

Section TaskOutcomes.

Variable env : Env.
Variable self : ASFTransfer.

Lemma not_running_not_succeeded (job : Job) :
  running job = false -> succeeded job = false -> failed job = true.
Proof.
  unfold running, complete. intros H1 H2. rewrite H2 in H1.
  destruct (failed job); [reflexivity | discriminate].
Qed.

Lemma copy_granule_raised_sound (job_id : string) (w : World) (e : exn) :
  collaborator_raises env self job_id w e ->
  fst (copy_granule env self job_id w) = Raised e.
Proof.
  intros H.
  destruct H as [e Hjob | job Hjob Hs Hf | job f rest e Hjob Hs Hf Hr
                 | job f rest lat lon e Hjob Hs Hf Hr Hh Hne
                 | job f rest lat lon e Hjob Hs Hf Hr Hex Hcp].
  - unfold copy_granule, bind, call. rewrite Hjob. reflexivity.
  - unfold copy_granule, bind, call. rewrite Hjob. cbn [ret].
    rewrite (succeeded_not_running job Hs), Hs. unfold first_file. rewrite Hf. reflexivity.
  - unfold copy_granule, bind, call. rewrite Hjob. cbn [ret].
    rewrite (succeeded_not_running job Hs), Hs. unfold first_file. rewrite Hf.
    cbn [ret]. rewrite Hr. reflexivity.
  - rewrite (copy_granule_succeeded env self job_id job f rest lat lon w Hjob Hs Hf Hr).
    rewrite object_exists_run, Hh.
    destruct e; try reflexivity. exfalso. exact (Hne code eq_refl).
  - rewrite (copy_granule_succeeded env self job_id job f rest lat lon w Hjob Hs Hf Hr).
    rewrite object_exists_run in Hex |- *. cbn [fst] in Hex. rewrite Hex.
    destruct (bucket_copy env _ _ _ _) as [[| |] w2]; cbn [fst] in *;
      [discriminate | congruence | discriminate].
Qed.

(** The outcome of the task, case by case. *)
Lemma copy_granule_cases (job_id : string) (w : World) :
  match fst (copy_granule env self job_id w) with
  | Returned msgs =>
      exists job, get_job_by_id env job_id = inr job /\ task_trace env self job msgs
  | Raised e => collaborator_raises env self job_id w e
  | OutOfFuel => False
  end.
Proof.
  destruct (get_job_by_id env job_id) as [e|job] eqn:Hjob.
  { unfold copy_granule, bind, call. rewrite Hjob. cbn [raise fst].
    apply lookup_raises; assumption. }
  destruct (running job) eqn:Hrun.
  { unfold copy_granule, bind, call. rewrite Hjob. cbn [ret]. rewrite Hrun. cbn [ret fst app].
    exists job. split; [reflexivity | apply trace_running; assumption]. }
  destruct (succeeded job) eqn:Hs.
  2:{ unfold copy_granule, bind, call. rewrite Hjob. cbn [ret]. rewrite Hrun, Hs.
      cbn [ret fst app]. exists job. split; [reflexivity|].
      apply trace_failed, not_running_not_succeeded; assumption. }
  destruct (files job) as [|f rest] eqn:Hf.
  { unfold copy_granule, bind, call. rewrite Hjob. cbn [ret]. rewrite Hrun, Hs.
    unfold first_file. rewrite Hf. cbn [raise fst].
    apply (first_file_missing env self job_id w job); assumption. }
  destruct (open_dataset env (f_url f)) as [e|[lat lon]] eqn:Hr.
  { unfold copy_granule, bind, call. rewrite Hjob. cbn [ret]. rewrite Hrun, Hs.
    unfold first_file. rewrite Hf. cbn [ret]. rewrite Hr. cbn [raise fst].
    apply (reader_raises env self job_id w job f rest); assumption. }
  rewrite (copy_granule_succeeded env self job_id job f rest lat lon w Hjob Hs Hf Hr).
  destruct (object_exists env (target_bucket self) (target_key_of self lat lon f) w)
    as [[[|]|e|] w1] eqn:Hex.
  - cbn [fst app]. exists job. split; [reflexivity|].
    apply (trace_present env self job f rest); assumption.
  - assert (Hw1 : w1 = add_call (HeadObject (target_bucket self)
                                   (target_key_of self lat lon f)) w)
      by (rewrite object_exists_run in Hex; congruence).
    destruct (bucket_copy env _ _ _ w1) as [[u|e|] w2] eqn:Hcp; cbn [fst app].
    + exists job. split; [reflexivity|].
      apply (trace_copied env self job f rest); assumption.
    + apply (copy_raises env self job_id w job f rest lat lon); try assumption.
      * rewrite Hex. reflexivity.
      * rewrite <- Hw1, Hcp. reflexivity.
    + rewrite bucket_copy_run in Hcp. cbn zeta in Hcp.
      destruct (copy_fault env _ _); [discriminate|].
      destruct (objects w1 !! _); discriminate.
  - cbn [fst]. rewrite object_exists_run in Hex.
    destruct (head_fault env _ _) as [e'|] eqn:Hh.
    + apply (head_raises env self job_id w job f rest lat lon); try assumption.
      * destruct e'; congruence.
      * intros code ->. destruct e'; congruence.
    + destruct (objects w !! _); discriminate.
  - rewrite object_exists_run in Hex.
    destruct (head_fault env _ _) as [[]|]; try discriminate.
    destruct (objects w !! _); discriminate.
Qed.

(** C8, as amended: the task has no handler of its own.  It always
    terminates; it raises [e] exactly when one of the calls it makes
    raises [e] (the job lookup, [job.files[0]], the reader, [load] with
    something else than a [ClientError], the copy); in every other
    case it returns, with the ordered trace of one of the four
    outcomes running, failed, already present, copied. *)
Theorem copy_granule_returns_or_propagates (job_id : string) (w : World) :
  fst (copy_granule env self job_id w) <> OutOfFuel
  /\ (forall e, fst (copy_granule env self job_id w) = Raised e <->
                collaborator_raises env self job_id w e)
  /\ (forall msgs, fst (copy_granule env self job_id w) = Returned msgs ->
        exists job, get_job_by_id env job_id = inr job /\ task_trace env self job msgs)
  /\ ((forall e, ~ collaborator_raises env self job_id w e) ->
      exists msgs w', copy_granule env self job_id w = (Returned msgs, w')).
Proof.
  pose proof (copy_granule_cases job_id w) as Main.
  split; [|split; [|split]].
  - intros H. rewrite H in Main. exact Main.
  - intros e. split.
    + intros H. rewrite H in Main. exact Main.
    + apply copy_granule_raised_sound.
  - intros msgs H. rewrite H in Main. exact Main.
  - intros Hno. destruct (copy_granule env self job_id w) as [[msgs|e|] w'] eqn:E;
      cbn [fst] in Main.
    + exists msgs, w'. reflexivity.
    + exfalso. exact (Hno e Main).
    + contradiction.
Qed.

End TaskOutcomes.

(** ** The orchestrator *)

Lemma ceil_div_least (a b : Z) :
  0 < b -> (ceil_div a b - 1) * b < a <= ceil_div a b * b.
Proof.
  intros Hb. unfold ceil_div.
  pose proof (Z.div_mod (a + b - 1) b ltac:(lia)) as Hdm.
  pose proof (Z.mod_pos_bound (a + b - 1) b Hb) as Hr.
  nia.
Qed.

Lemma chunked_nil_inv {A : Type} (C : Z) (chunks : list (list A)) :
  chunked C [] chunks -> chunks = [].
Proof.
  intros H. remember (@nil A) as l eqn:El.
  destruct H as [| c Hc Hl | c rest chunks' Hl Hrest Hch].
  - reflexivity.
  - contradiction.
  - apply app_eq_nil in El as [_ El]. contradiction.
Qed.

Lemma chunked_facts {A : Type} (C : Z) (l : list A) (chunks : list (list A)) :
  0 < C -> chunked C l chunks ->
  let L := Z.of_nat (length l) in
  concat chunks = l
  /\ Z.of_nat (length chunks) = ceil_div L C
  /\ (forall (i : nat) c, chunks !! i = Some c -> (i + 1 < length chunks)%nat ->
        Z.of_nat (length c) = C)
  /\ (forall c, last chunks = Some c ->
        Z.of_nat (length c) = if L mod C =? 0 then C else L mod C).
Proof.
  intros HC H. induction H as [| c Hc Hl | c rest chunks Hl Hrest Hch IH].
  - cbn. repeat split.
    + unfold ceil_div. symmetry. apply Z.div_small. lia.
    + intros i c Hi. destruct i; discriminate.
    + intros c Hc. discriminate.
  - assert (0 < Z.of_nat (length c)) by (destruct c; [contradiction | cbn; lia]).
    cbn zeta. repeat split.
    + cbn. apply app_nil_r.
    + unfold ceil_div. change (Z.of_nat (length [c])) with 1.
      apply (Z.div_unique _ _ 1 (Z.of_nat (length c) - 1)); lia.
    + intros i c' Hi Hlt. cbn in Hlt. lia.
    + intros c' Hc'. cbn in Hc'. injection Hc' as <-.
      destruct (Z.eq_dec (Z.of_nat (length c)) C) as [E|E].
      * rewrite E, Z.mod_same by lia. reflexivity.
      * rewrite Z.mod_small by lia.
        destruct (Z.of_nat (length c) =? 0) eqn:E0; [lia | reflexivity].
  - cbn zeta in IH. destruct IH as (IHc & IHn & IHfull & IHlast).
    assert (Hlen : Z.of_nat (length (c ++ rest)) = Z.of_nat (length rest) + 1 * C)
      by (rewrite length_app; lia).
    cbn zeta. rewrite Hlen. repeat split.
    + cbn. rewrite IHc. reflexivity.
    + cbn [length]. rewrite Nat2Z.inj_succ, IHn. unfold ceil_div.
      replace (Z.of_nat (length rest) + 1 * C + C - 1)
        with (Z.of_nat (length rest) + C - 1 + 1 * C) by lia.
      rewrite Z.div_add by lia. lia.
    + intros i c' Hi Hlt. destruct i as [|i].
      * cbn in Hi. injection Hi as <-. exact Hl.
      * cbn in Hi, Hlt. apply (IHfull i c' Hi). lia.
    + intros c' Hc'. rewrite Z.mod_add by lia. apply IHlast.
      destruct chunks as [|c0 chunks0].
      * inversion Hch; subst; contradiction.
      * rewrite last_cons_cons in Hc'. exact Hc'.
Qed.

Lemma slice_window {A : Type} (l : list A) (start n : Z) :
  0 <= start -> 0 <= n -> start + n <= Z.of_nat (length l) ->
  Py.slice l start (start + n) = firstn (Z.to_nat n) (skipn (Z.to_nat start) l).
Proof.
  intros Hs Hn Hl. unfold Py.slice, Py.clamp_index.
  destruct (start <? 0) eqn:E1; [lia|]. destruct (start + n <? 0) eqn:E2; [lia|].
  f_equal; [f_equal|f_equal]; lia.
Qed.

Lemma window_split {A : Type} (l : list A) (s n : nat) :
  skipn s l = firstn n (skipn s l) ++ skipn (s + n) l.
Proof.
  rewrite <- (firstn_skipn n (skipn s l)) at 1. f_equal.
  rewrite skipn_skipn. f_equal. lia.
Qed.

Section Orchestrator.

Variable env : Env.
Variable self : ASFTransfer.

(** The task neither logs nor dispatches: it only talks to the store. *)
Lemma copy_granule_frame (job_id : string) (w : World) :
  log (snd (copy_granule env self job_id w)) = log w
  /\ dispatched (snd (copy_granule env self job_id w)) = dispatched w.
Proof.
  unfold copy_granule, bind, call.
  destruct (get_job_by_id env job_id) as [e|job]; [split; reflexivity|].
  cbn [ret]. destruct (running job); [split; reflexivity|].
  destruct (succeeded job); [|split; reflexivity].
  unfold first_file. destruct (files job) as [|f rest]; [split; reflexivity|].
  cbn [ret]. destruct (open_dataset env (f_url f)) as [e|[lat lon]]; [split; reflexivity|].
  cbn [ret fst snd]. rewrite object_exists_run.
  destruct (head_fault env _ _) as [[]|];
    [| | | |destruct (objects w !! (target_bucket self, _))];
    try (split; reflexivity);
    rewrite bucket_copy_run; cbn zeta;
    (destruct (copy_fault env _ _);
     [|cbn [objects add_call]; destruct (objects w !! (f_s3_bucket f, f_s3_key f))]);
    split; reflexivity.
Qed.

Lemma dask_compute_frame (ids : list string) (w : World) :
  log (snd (dask_compute (map (copy_granule env self) ids) w)) = log w
  /\ dispatched (snd (dask_compute (map (copy_granule env self) ids) w)) = dispatched w.
Proof.
  revert w. induction ids as [|id ids IH]; intros w; [split; reflexivity|].
  cbn [map dask_compute]. unfold bind.
  pose proof (copy_granule_frame id w) as [Hl Hd].
  destruct (copy_granule env self id w) as [[r|e|] w1]; cbn [snd] in *;
    try (split; assumption).
  specialize (IH w1) as [IHl IHd].
  destruct (dask_compute (map (copy_granule env self) ids) w1) as [[rs|e|] w2];
    cbn [snd ret] in *; split; congruence.
Qed.

Lemma log_results_run (results : list (list string)) (w : World) :
  exists w', log_results results w = (Returned tt, w')
             /\ log w' = log w ++ map (join "-->") results
             /\ dispatched w' = dispatched w
             /\ objects w' = objects w /\ s3_calls w' = s3_calls w.
Proof.
  revert w. induction results as [|r rs IH]; intros w.
  - exists w. cbn. rewrite app_nil_r. repeat split; reflexivity.
  - cbn [log_results]. unfold bind, logging_info.
    destruct (IH (add_line (join "-->" r) w)) as (w' & E & Hl & Hd & Ho & Hc).
    exists w'. rewrite E. cbn [log add_line dispatched objects s3_calls] in *.
    repeat split; try assumption.
    rewrite Hl, <- app_assoc. reflexivity.
Qed.

(** An exception of a task is the outcome of [dask.compute]. *)
Lemma dask_compute_raises {A : Type} (before after : list (M A)) (t : M A)
    (rs : list A) (e : exn) (w w1 w2 : World) :
  dask_compute before w = (Returned rs, w1) ->
  t w1 = (Raised e, w2) ->
  dask_compute (before ++ t :: after) w = (Raised e, w2).
Proof.
  revert rs w. induction before as [|b before IH]; intros rs w Hb Ht.
  - cbn in Hb. injection Hb as <- <-. cbn [app dask_compute]. unfold bind. rewrite Ht.
    reflexivity.
  - cbn [app dask_compute] in *. unfold bind in Hb |- *.
    destruct (b w) as [[r|e'|] wb]; try discriminate.
    destruct (dask_compute before wb) as [[rs'|e'|] wb'] eqn:E; try discriminate.
    cbn [ret] in Hb. injection Hb as <- <-.
    rewrite (IH rs' wb E Ht). reflexivity.
Qed.

(** [dask.compute] on the tasks of a chunk returns or raises. *)
Lemma dask_compute_total (ids : list string) (w : World) :
  fst (dask_compute (map (copy_granule env self) ids) w) <> OutOfFuel.
Proof.
  revert w. induction ids as [|id ids IH]; intros w; [discriminate|].
  cbn [map dask_compute]. unfold bind.
  pose proof (copy_granule_cases env self id w) as Hc.
  destruct (copy_granule env self id w) as [[r|e|] w1]; cbn [fst] in *;
    [|discriminate|contradiction].
  specialize (IH w1).
  destruct (dask_compute (map (copy_granule env self) ids) w1) as [[rs|e|] w2];
    cbn [fst ret] in *; [discriminate|discriminate|contradiction].
Qed.

Variable job_ids : list string.
Variable chunks_to_copy : Z.
Hypothesis chunk_positive : 0 < chunks_to_copy.

Let L : Z := Z.of_nat (length job_ids).

(** One iteration of the loop up to the call of [dask.compute]. *)
Lemma run_loop_step (fuel : nat) (start : Z) (w : World) :
  0 <= start < L ->
  let num_tasks := Z.min chunks_to_copy (L - start) in
  let ids := firstn (Z.to_nat num_tasks) (skipn (Z.to_nat start) job_ids) in
  let line := "Starting tasks " +:+ Py.str_int start +:+ ":" +:+
              Py.str_int (start + num_tasks) in
  Z.of_nat (length ids) = num_tasks /\
  run_loop env (S fuel) self job_ids chunks_to_copy (L - start) start w =
    match dask_compute (map (copy_granule env self) ids) (add_chunk ids (add_line line w)) with
    | (Returned results, w1) =>
        match log_results results w1 with
        | (Returned _, w2) =>
            run_loop env fuel self job_ids chunks_to_copy
                     (L - (start + num_tasks)) (start + num_tasks) w2
        | (Raised e, w2) => (Raised e, w2)
        | (OutOfFuel, w2) => (OutOfFuel, w2)
        end
    | (Raised e, w1) => (Raised e, w1)
    | (OutOfFuel, w1) => (OutOfFuel, w1)
    end.
Proof.
  intros Hs num_tasks ids line.
  assert (Hlen : Z.of_nat (length ids) = num_tasks).
  { subst ids. rewrite length_firstn, length_skipn. subst num_tasks L. lia. }
  split; [exact Hlen|].
  cbn [run_loop]. destruct (L - start >? 0) eqn:E; [|lia].
  assert (Hn : (if L - start >? chunks_to_copy then chunks_to_copy else L - start) = num_tasks)
    by (subst num_tasks; destruct (L - start >? chunks_to_copy) eqn:E'; lia).
  rewrite Hn. rewrite slice_window by (subst num_tasks L; lia). fold ids. fold line.
  unfold bind at 1. unfold logging_info at 1.
  unfold bind at 1. rewrite length_map, Hlen, Z.eqb_refl. cbn [assert ret].
  unfold bind at 1. unfold record_chunk at 1.
  unfold bind at 1.
  destruct (dask_compute (map (copy_granule env self) ids) _) as [[results|e|] w1];
    try reflexivity.
  unfold bind at 1.
  destruct (log_results results w1) as [[u|e|] w2]; try reflexivity.
  replace (L - start - num_tasks) with (L - (start + num_tasks)) by lia. reflexivity.
Qed.

Lemma run_loop_done (fuel : nat) (w : World) :
  run_loop env fuel self job_ids chunks_to_copy (L - L) L w = (Returned tt, w).
Proof. rewrite Z.sub_diag. destruct fuel; reflexivity. Qed.

(** With enough fuel the loop either raises what a task raised, or runs
    to its end and has dispatched the windows of [chunks_to_copy] ids
    that cut the rest of the list. *)
Lemma run_loop_outcome (fuel : nat) :
  forall (start : Z) (w : World),
    0 <= start <= L -> L - start <= Z.of_nat fuel ->
    (exists chunks w',
       run_loop env fuel self job_ids chunks_to_copy (L - start) start w = (Returned tt, w')
       /\ dispatched w' = dispatched w ++ chunks
       /\ chunked chunks_to_copy (skipn (Z.to_nat start) job_ids) chunks)
    \/ (exists e w',
          run_loop env fuel self job_ids chunks_to_copy (L - start) start w = (Raised e, w')).
Proof.
  induction fuel as [|fuel IH]; intros start w Hs Hf.
  - assert (start = L) as -> by lia. left. exists [], w.
    split; [apply run_loop_done|]. split; [symmetry; apply app_nil_r|].
    subst L. rewrite Nat2Z.id, skipn_all. constructor.
  - destruct (Z.eq_dec start L) as [->|Hne].
    { left. exists [], w. split; [apply run_loop_done|]. split; [symmetry; apply app_nil_r|].
      subst L. rewrite Nat2Z.id, skipn_all. constructor. }
    pose proof (run_loop_step fuel start w ltac:(lia)) as [Hlen Hstep].
    cbn zeta in Hlen, Hstep.
    set (num_tasks := Z.min chunks_to_copy (L - start)) in *.
    set (ids := firstn (Z.to_nat num_tasks) (skipn (Z.to_nat start) job_ids)) in *.
    set (w0 := add_chunk ids (add_line _ w)) in *.
    pose proof (dask_compute_total ids w0) as Htot.
    pose proof (dask_compute_frame ids w0) as [_ Hd1].
    destruct (dask_compute (map (copy_granule env self) ids) w0) as [[rs|e|] w1];
      cbn [fst snd] in Htot, Hd1; [|right; exists e, w1; exact Hstep|contradiction].
    destruct (log_results_run rs w1) as (w2 & E2 & _ & Hd2 & _). rewrite E2 in Hstep.
    destruct (IH (start + num_tasks) w2 ltac:(lia) ltac:(lia))
      as [(chunks & w' & E3 & Hd3 & Hch)|(e & w' & E3)];
      [|right; exists e, w'; rewrite Hstep; exact E3].
    left. exists (ids :: chunks), w'. rewrite Hstep. split; [exact E3|]. split.
    + rewrite Hd3, Hd2, Hd1. subst w0. cbn [dispatched add_chunk add_line].
      rewrite <- app_assoc. reflexivity.
    + rewrite (window_split job_ids (Z.to_nat start) (Z.to_nat num_tasks)). fold ids.
      replace (Z.to_nat start + Z.to_nat num_tasks)%nat with (Z.to_nat (start + num_tasks)) by lia.
      assert (Hrest : Z.of_nat (length (skipn (Z.to_nat (start + num_tasks)) job_ids))
                      = L - (start + num_tasks))
        by (rewrite length_skipn; subst L; lia).
      destruct (skipn (Z.to_nat (start + num_tasks)) job_ids) as [|x rest] eqn:Erest.
      * apply chunked_nil_inv in Hch as ->. rewrite app_nil_r.
        apply chunked_last; [|lia].
        intros Hnil. rewrite Hnil in Hlen. cbn in Hlen. lia.
      * apply chunked_full; [|discriminate|exact Hch].
        cbn [length] in Hrest. lia.
Qed.

Lemma dask_compute_tasks_ran (ids : list string) (w w1 : World) (rs : list (list string)) :
  dask_compute (map (copy_granule env self) ids) w = (Returned rs, w1) ->
  tasks_ran env self ids w rs w1.
Proof.
  revert w rs. induction ids as [|id ids IH]; intros w rs H.
  - cbn in H. injection H as <- <-. constructor.
  - cbn [map dask_compute] in H. unfold bind in H.
    destruct (copy_granule env self id w) as [[msgs|e|] w0] eqn:E0; try discriminate.
    destruct (dask_compute (map (copy_granule env self) ids) w0) as [[rs'|e|] w2] eqn:E1;
      try discriminate.
    cbn [ret] in H. injection H as <- <-.
    exact (tasks_ran_cons env self id ids w msgs w0 rs' w2 E0 (IH w0 rs' E1)).
Qed.

Lemma log_results_lines (results : list (list string)) (w : World) :
  log_results results w = (Returned tt, add_lines (map (join "-->") results) w).
Proof.
  revert w. induction results as [|r rs IH]; intros w; [reflexivity|].
  cbn [log_results]. unfold bind, logging_info. rewrite IH. reflexivity.
Qed.

Lemma add_lines_dispatched (lines : list string) (w : World) :
  dispatched (add_lines lines w) = dispatched w.
Proof.
  revert w. induction lines as [|l lines IH]; intros w; [reflexivity|].
  cbn [add_lines fold_left]. fold (add_lines lines (add_line l w)). rewrite IH. reflexivity.
Qed.

(** A loop that returns ran one iteration for each chunk it dispatched. *)
Lemma run_loop_ran (fuel : nat) :
  forall (start : Z) (w w' : World),
    0 <= start <= L ->
    run_loop env fuel self job_ids chunks_to_copy (L - start) start w = (Returned tt, w') ->
    exists chunks,
      dispatched w' = dispatched w ++ chunks
      /\ chunks_ran env self start chunks w w'.
Proof.
  induction fuel as [|fuel IH]; intros start w w' Hs Hrun.
  - destruct (Z.eq_dec start L) as [->|Hne].
    + rewrite run_loop_done in Hrun. injection Hrun as <-. exists [].
      split; [symmetry; apply app_nil_r | constructor].
    + cbn [run_loop] in Hrun. destruct (L - start >? 0) eqn:E; [discriminate | lia].
  - destruct (Z.eq_dec start L) as [->|Hne].
    { rewrite run_loop_done in Hrun. injection Hrun as <-. exists [].
      split; [symmetry; apply app_nil_r | constructor]. }
    pose proof (run_loop_step fuel start w ltac:(lia)) as [Hlen Hstep].
    cbn zeta in Hlen, Hstep.
    set (num_tasks := Z.min chunks_to_copy (L - start)) in *.
    set (ids := firstn (Z.to_nat num_tasks) (skipn (Z.to_nat start) job_ids)) in *.
    change ("Starting tasks " +:+ Py.str_int start +:+ ":" +:+ Py.str_int (start + num_tasks))
      with (starting_line start (start + num_tasks)) in Hstep.
    rewrite <- Hlen in Hstep at 1.
    set (w0 := add_chunk ids (add_line (starting_line start (start + Z.of_nat (length ids))) w))
      in *.
    rewrite Hstep in Hrun.
    pose proof (dask_compute_frame ids w0) as [_ Hd1].
    destruct (dask_compute (map (copy_granule env self) ids) w0) as [[rs|e|] w1] eqn:E1;
      try discriminate.
    cbn [snd] in Hd1. rewrite log_results_lines in Hrun.
    destruct (IH (start + num_tasks) _ w' ltac:(lia) Hrun) as (chunks & Hd & Hran).
    exists (ids :: chunks). split.
    + rewrite Hd, add_lines_dispatched, Hd1. subst w0. cbn [dispatched add_chunk add_line].
      rewrite <- app_assoc. reflexivity.
    + apply (chunks_ran_cons env self start ids chunks w rs w1 w').
      * exact (dask_compute_tasks_ran ids w0 w1 rs E1).
      * rewrite Hlen. exact Hran.
Qed.

(** C5, as amended: with a positive chunk size, a run that no exception
    cuts short returns after [ceil(L/C)] iterations of its loop.  Every
    chunk but the last has exactly [C] ids, the last has [L mod C] of
    them ([C] when [C] divides [L]), and the chunks put end to end are
    the list of job ids.  In each iteration the chunk is announced and
    handed to [dask.compute], the task of each of its ids runs, once,
    and returns, and the traces are logged: each id goes to one task of
    one chunk. *)
Theorem run_chunks (fuel : nat) (w : World) :
  (length job_ids <= fuel)%nat ->
  (forall e, fst (run env fuel self job_ids chunks_to_copy w) <> Raised e) ->
  exists chunks w',
    run env fuel self job_ids chunks_to_copy w = (Returned tt, w')
    /\ chunks_ran env self 0 chunks
         (add_line (Py.str_int L +:+ " granules to copy...") w) w'
    /\ dispatched w' = dispatched w ++ chunks
    /\ Z.of_nat (length chunks) = ceil_div L chunks_to_copy
    /\ (Z.of_nat (length chunks) - 1) * chunks_to_copy < L
         <= Z.of_nat (length chunks) * chunks_to_copy
    /\ (forall (i : nat) c, chunks !! i = Some c -> (i + 1 < length chunks)%nat ->
          Z.of_nat (length c) = chunks_to_copy)
    /\ (forall c, last chunks = Some c ->
          Z.of_nat (length c) =
            if L mod chunks_to_copy =? 0 then chunks_to_copy else L mod chunks_to_copy)
    /\ concat chunks = job_ids.
Proof.
  intros Hfuel Hno. unfold run, bind, logging_info in Hno |- *.
  destruct (run_loop_outcome fuel 0
              (add_line (Py.str_int L +:+ " granules to copy...") w)
              ltac:(subst L; lia) ltac:(subst L; lia))
    as [(chunks & w' & E & Hd & Hch)|(e & w' & E)].
  2:{ rewrite Z.sub_0_r in E. fold L in Hno. rewrite E in Hno.
      exfalso. exact (Hno e eq_refl). }
  destruct (run_loop_ran fuel 0 _ w' ltac:(subst L; lia) E) as (chunks' & Hd' & Hran).
  assert (chunks' = chunks) as -> by (rewrite Hd in Hd'; exact (app_inv_head _ _ _ (eq_sym Hd'))).
  rewrite Z.sub_0_r in E. fold L. rewrite E.
  change (Z.to_nat 0) with 0%nat in Hch. cbn [skipn] in Hch.
  destruct (chunked_facts chunks_to_copy job_ids chunks chunk_positive Hch)
    as (Hcat & Hn & Hfull & Hlast).
  exists chunks, w'.
  split; [reflexivity|]. split; [exact Hran|]. split; [exact Hd|]. split; [exact Hn|].
  split; [rewrite Hn; apply ceil_div_least, chunk_positive|].
  split; [exact Hfull|]. split; [exact Hlast | exact Hcat].
Qed.

(** C9, as amended: when a task of a chunk raises after the tasks
    before it returned their traces, [dask.compute] raises that
    exception and [run] has no handler: the loop stops on it, the only
    line logged for the chunk is its [Starting tasks] line, so none of
    the traces of the chunk is logged, and no later chunk is
    dispatched.  What earlier chunks logged stays in the log. *)
Theorem task_exception_aborts_chunk (fuel : nat) (start : Z) (w : World)
    (before after : list string) (id : string) (rs : list (list string))
    (e : exn) (w1 w2 : World) :
  0 <= start < L ->
  let num_tasks := Z.min chunks_to_copy (L - start) in
  let ids := firstn (Z.to_nat num_tasks) (skipn (Z.to_nat start) job_ids) in
  let line := "Starting tasks " +:+ Py.str_int start +:+ ":" +:+
              Py.str_int (start + num_tasks) in
  ids = before ++ id :: after ->
  dask_compute (map (copy_granule env self) before) (add_chunk ids (add_line line w))
    = (Returned rs, w1) ->
  copy_granule env self id w1 = (Raised e, w2) ->
  run_loop env (S fuel) self job_ids chunks_to_copy (L - start) start w = (Raised e, w2)
  /\ log w2 = log w ++ [line]
  /\ dispatched w2 = dispatched w ++ [ids].
Proof.
  intros Hs num_tasks ids line Hids Hbefore Hraise.
  pose proof (run_loop_step fuel start w Hs) as [_ Hstep]. cbn zeta in Hstep.
  fold num_tasks ids line in Hstep.
  assert (Hdc : dask_compute (map (copy_granule env self) ids) (add_chunk ids (add_line line w))
                = (Raised e, w2)).
  { rewrite Hids at 1. rewrite map_app. cbn [map].
    exact (dask_compute_raises _ _ _ rs e _ w1 w2 Hbefore Hraise). }
  pose proof (dask_compute_frame ids (add_chunk ids (add_line line w))) as [Hl Hd].
  rewrite Hdc in Hl, Hd, Hstep. cbn [snd] in Hl, Hd.
  split; [exact Hstep|]. split; [rewrite Hl | rewrite Hd]; reflexivity.
Qed.

End Orchestrator.

(** *** Chunk sizes that are not positive *)

(** A chunk size of zero never ends: every iteration dispatches an empty
    chunk and leaves [num_to_copy] as it was, whatever the fuel. *)
Lemma run_loop_zero_chunk (env : Env) (self : ASFTransfer) (job_ids : list string)
    (fuel : nat) (num_to_copy start : Z) (w : World) :
  0 < num_to_copy ->
  fst (run_loop env fuel self job_ids 0 num_to_copy start w) = OutOfFuel.
Proof.
  intros Hn. revert w. induction fuel as [|fuel IH]; intros w.
  - cbn [run_loop]. destruct (num_to_copy >? 0) eqn:E; [reflexivity | lia].
  - cbn [run_loop]. destruct (num_to_copy >? 0) eqn:E; [|lia].
    rewrite Z.add_0_r, Z.sub_0_r.
    assert (Hs : Py.slice job_ids start start = []).
    { unfold Py.slice. rewrite Z.sub_diag. reflexivity. }
    rewrite Hs. cbn [map length Z.of_nat Z.eqb assert dask_compute].
    unfold bind, logging_info, ret, record_chunk. cbn [log_results ret].
    apply IH.
Qed.

(** A negative chunk size trips the assertion of line 77 in the first
    iteration. *)
Lemma run_loop_negative_chunk (env : Env) (self : ASFTransfer) (job_ids : list string)
    (fuel : nat) (chunks_to_copy num_to_copy start : Z) (w : World) :
  chunks_to_copy < 0 -> 0 < num_to_copy ->
  fst (run_loop env (S fuel) self job_ids chunks_to_copy num_to_copy start w)
    = Raised AssertionError.
Proof.
  intros Hc Hn. cbn [run_loop]. destruct (num_to_copy >? 0) eqn:E; [|lia].
  destruct (num_to_copy >? chunks_to_copy) eqn:E'; [|lia].
  unfold bind, logging_info. rewrite length_map.
  destruct (Z.of_nat (length (Py.slice job_ids start (start + chunks_to_copy))) =? chunks_to_copy)
    eqn:E2; [apply Z.eqb_eq in E2; lia | reflexivity].
Qed.

(** ** The model at work on the concrete scene *)

Lemma running_job_touches_nothing_witness :
  running (Scene.job_of "run" RUNNING []) = true
  /\ copy_granule Scene.healthy Scene.transfer "run" Scene.occupied =
       (Returned ["Processing HyP3 AUTORIFT job run";
                  "WARNING: Job is still running! Skipping HyP3 AUTORIFT job run"],
        Scene.occupied).
Proof.
  assert (Hrun : running (Scene.job_of "run" RUNNING []) = true) by reflexivity.
  destruct (running_job_touches_nothing Scene.healthy Scene.transfer "run"
              (Scene.job_of "run" RUNNING []) Scene.occupied eq_refl Hrun)
    as (msgs & w' & E & Hm & _ & _ & _ & Hw).
  split; [exact Hrun|]. rewrite E, Hm, Hw. reflexivity.
Defined.

Lemma copy_granule_twice_witness :
  objects Scene.fresh !! Scene.target = None
  /\ exists w1 w2,
       fst (copy_granule Scene.healthy Scene.transfer "ok" Scene.fresh) =
         Returned ["Processing HyP3 AUTORIFT job ok"; "Image center (lat, lon): (78.3, -123.7)";
                   "Copying hyp3-contentbucket/a/granule.nc to its-live-data/velocity_image_pair/N70W120/granule.nc"]
       /\ snd (copy_granule Scene.healthy Scene.transfer "ok" Scene.fresh) = w1
       /\ copy_granule Scene.healthy Scene.transfer "ok" w1 =
            (Returned ["Processing HyP3 AUTORIFT job ok"; "Image center (lat, lon): (78.3, -123.7)";
                       "WARNING: its-live-data/velocity_image_pair/N70W120/granule.nc already exists! skipping HyP3 AUTORIFT job ok"],
             w2)
       /\ objects w1 !! Scene.target = Some "new bytes"
       /\ objects w2 = objects w1.
Proof.
  assert (Hfree : objects Scene.fresh !! Scene.target = None) by (vm_compute; reflexivity).
  assert (Hsrc : objects Scene.fresh !! ("hyp3-contentbucket", "a/granule.nc") = Some "new bytes")
    by (vm_compute; reflexivity).
  destruct (copy_granule_twice Scene.healthy Scene.transfer "ok"
              (Scene.job_of "ok" SUCCEEDED [Scene.granule]) Scene.granule []
              78.3%Q (-123.7)%Q "new bytes" Scene.fresh
              eq_refl eq_refl eq_refl eq_refl eq_refl eq_refl Hfree Hsrc)
    as (w1 & w2 & E1 & E2 & Hnew & Hsame & _).
  split; [exact Hfree|]. exists w1, w2.
  split; [rewrite E1; reflexivity|]. split; [rewrite E1; reflexivity|].
  split; [rewrite E2; reflexivity|]. split; [exact Hnew | exact Hsame].
Defined.

(** C1 fails on the code: [object_exists] takes a [ClientError] of any
    kind for "absent".  Here an object is already at the target key and
    [HeadObject] is denied (403): the task issues the copy and the old
    object is replaced. *)
Theorem existing_object_overwritten_when_head_fails :
  objects Scene.occupied !! Scene.target = Some "old bytes"
  /\ fst (object_exists Scene.head_denied (fst Scene.target) (snd Scene.target) Scene.occupied)
       = Returned false
  /\ fst (copy_granule Scene.head_denied Scene.transfer "ok" Scene.occupied) =
       Returned [msg_processing (Scene.job_of "ok" SUCCEEDED [Scene.granule]);
                 msg_center Scene.head_denied 78.3 (-123.7);
                 msg_copying ("hyp3-contentbucket", "a/granule.nc")
                   (fst Scene.target) (snd Scene.target)]
  /\ s3_calls (snd (copy_granule Scene.head_denied Scene.transfer "ok" Scene.occupied)) =
       [HeadObject (fst Scene.target) (snd Scene.target);
        CopyObject "hyp3-contentbucket" "a/granule.nc" (fst Scene.target) (snd Scene.target)]
  /\ objects (snd (copy_granule Scene.head_denied Scene.transfer "ok" Scene.occupied))
       !! Scene.target = Some "new bytes".
Proof.
  repeat split; vm_compute; reflexivity.
Qed.

(** C8 as stated fails: the task raises when the job lookup raises, when
    a succeeded job lists no file, and when the copy is refused. *)
Lemma copy_granule_can_raise :
  fst (copy_granule Scene.healthy Scene.transfer "unknown" Scene.fresh)
    = Raised (OtherError "HyP3Error")
  /\ fst (copy_granule Scene.healthy Scene.transfer "nofile" Scene.fresh) = Raised IndexError
  /\ fst (copy_granule Scene.copy_denied Scene.transfer "ok" Scene.fresh)
       = Raised (ClientError "AccessDenied").
Proof.
  repeat split; vm_compute; reflexivity.
Qed.

Lemma copy_granule_returns_or_propagates_witness :
  (forall e, ~ collaborator_raises Scene.healthy Scene.transfer "bad" Scene.fresh e)
  /\ fst (copy_granule Scene.healthy Scene.transfer "bad" Scene.fresh) =
       Returned ["Processing HyP3 AUTORIFT job bad"; "WARNING: HyP3 AUTORIFT job bad failed!"]
  /\ collaborator_raises Scene.healthy Scene.transfer "unknown" Scene.fresh
       (OtherError "HyP3Error").
Proof.
  pose proof (copy_granule_returns_or_propagates Scene.healthy Scene.transfer "bad" Scene.fresh)
    as (_ & Hbad & _ & _).
  pose proof (copy_granule_returns_or_propagates Scene.healthy Scene.transfer "unknown" Scene.fresh)
    as (_ & Hunk & _ & _).
  split; [|split].
  - intros e He. apply Hbad in He. vm_compute in He. discriminate He.
  - reflexivity.
  - apply Hunk. reflexivity.
Defined.

Lemma run_chunks_witness :
  0 < 2
  /\ exists chunks w',
       run Scene.healthy 5 Scene.transfer ["run"; "ok"; "bad"; "ok"; "run"] 2 Scene.fresh
         = (Returned tt, w')
       /\ chunks_ran Scene.healthy Scene.transfer 0 chunks
            (add_line "5 granules to copy..." Scene.fresh) w'
       /\ chunks = [["run"; "ok"]; ["bad"; "ok"]; ["run"]]
       /\ Z.of_nat (length chunks) = ceil_div 5 2.
Proof.
  assert (HC : 0 < 2) by lia.
  assert (Hno : forall e,
             fst (run Scene.healthy 5 Scene.transfer ["run"; "ok"; "bad"; "ok"; "run"] 2
                    Scene.fresh) <> Raised e)
    by (intros e H; vm_compute in H; discriminate H).
  destruct (run_chunks Scene.healthy Scene.transfer ["run"; "ok"; "bad"; "ok"; "run"] 2 HC
              5 Scene.fresh (le_n 5) Hno)
    as (chunks & w' & E & Hran & Hd & Hn & _).
  split; [exact HC|]. exists chunks, w'.
  assert (Hw : snd (run Scene.healthy 5 Scene.transfer
                      ["run"; "ok"; "bad"; "ok"; "run"] 2 Scene.fresh) = w')
    by (rewrite E; reflexivity).
  assert (Hc : chunks = [["run"; "ok"]; ["bad"; "ok"]; ["run"]]).
  { change (dispatched Scene.fresh ++ chunks) with chunks in Hd.
    rewrite <- Hd, <- Hw. vm_compute. reflexivity. }
  split; [exact E|]. split; [exact Hran|]. split; [exact Hc | exact Hn].
Defined.

(** C5 as stated fails: with chunks of one id, [ceil(3/1) = 3] iterations
    are due, but the task of the first id raises and [run] raises with
    it: one chunk was dispatched, the two other ids went to no task and
    the store was not called for them. *)
Lemma run_stops_at_raising_task :
  ceil_div 3 1 = 3
  /\ fst (run Scene.healthy 3 Scene.transfer ["unknown"; "ok"; "run"] 1 Scene.fresh)
       = Raised (OtherError "HyP3Error")
  /\ dispatched (snd (run Scene.healthy 3 Scene.transfer ["unknown"; "ok"; "run"] 1 Scene.fresh))
       = [["unknown"]]
  /\ log (snd (run Scene.healthy 3 Scene.transfer ["unknown"; "ok"; "run"] 1 Scene.fresh))
       = ["3 granules to copy..."; "Starting tasks 0:1"]
  /\ s3_calls (snd (run Scene.healthy 3 Scene.transfer ["unknown"; "ok"; "run"] 1 Scene.fresh))
       = [].
Proof.
  repeat split; vm_compute; reflexivity.
Qed.

(** C9 as stated fails: in the chunk [ok; run; unknown] the first two
    tasks succeed and the third raises; [run] raises too and the log has
    the two announcements only, no trace of the two tasks that
    succeeded. *)
Lemma sibling_traces_not_logged :
  (exists msgs w', copy_granule Scene.healthy Scene.transfer "ok" Scene.fresh
                   = (Returned msgs, w'))
  /\ (exists msgs w', copy_granule Scene.healthy Scene.transfer "run" Scene.fresh
                      = (Returned msgs, w'))
  /\ fst (copy_granule Scene.healthy Scene.transfer "unknown" Scene.fresh)
       = Raised (OtherError "HyP3Error")
  /\ fst (run Scene.healthy 3 Scene.transfer ["ok"; "run"; "unknown"] 3 Scene.fresh)
       = Raised (OtherError "HyP3Error")
  /\ log (snd (run Scene.healthy 3 Scene.transfer ["ok"; "run"; "unknown"] 3 Scene.fresh))
       = ["3 granules to copy..."; "Starting tasks 0:3"]
  /\ s3_calls (snd (run Scene.healthy 3 Scene.transfer ["ok"; "run"; "unknown"] 3 Scene.fresh))
       = [HeadObject (fst Scene.target) (snd Scene.target);
          CopyObject "hyp3-contentbucket" "a/granule.nc" (fst Scene.target) (snd Scene.target)].
Proof.
  split; [eexists _, _; vm_compute; reflexivity|].
  split; [eexists _, _; vm_compute; reflexivity|].
  repeat split; vm_compute; reflexivity.
Qed.

Lemma task_exception_aborts_chunk_witness :
  0 < 2
  /\ fst (run_loop Scene.healthy 1 Scene.transfer ["bad"; "run"; "ok"; "unknown"] 2 (4 - 2) 2
            Scene.fresh) = Raised (OtherError "HyP3Error")
  /\ log (snd (run_loop Scene.healthy 1 Scene.transfer ["bad"; "run"; "ok"; "unknown"] 2 (4 - 2) 2
                 Scene.fresh)) = ["Starting tasks 2:4"].
Proof.
  assert (HC : 0 < 2) by lia.
  pose (w0 := add_chunk ["ok"; "unknown"] (add_line "Starting tasks 2:4" Scene.fresh)).
  pose (w1 := snd (copy_granule Scene.healthy Scene.transfer "ok" w0)).
  assert (Hbefore :
            dask_compute (map (copy_granule Scene.healthy Scene.transfer) ["ok"]) w0 =
              (Returned [["Processing HyP3 AUTORIFT job ok"; "Image center (lat, lon): (78.3, -123.7)";
                          "Copying hyp3-contentbucket/a/granule.nc to its-live-data/velocity_image_pair/N70W120/granule.nc"]],
               w1))
    by (vm_compute; reflexivity).
  destruct (task_exception_aborts_chunk Scene.healthy Scene.transfer
              ["bad"; "run"; "ok"; "unknown"] 2 HC 0 2 Scene.fresh
              ["ok"] [] "unknown" _ (OtherError "HyP3Error") w1 w1
              ltac:(cbn; lia) eq_refl Hbefore eq_refl)
    as (E & Hl & _).
  split; [exact HC|]. cbn zeta in E, Hl.
  change (Z.of_nat (length ["bad"; "run"; "ok"; "unknown"])) with 4 in E.
  rewrite E. cbn [fst snd]. split; [reflexivity | exact Hl].
Defined.

(** * More of the resolver *)

Lemma bin10_nonneg (v : Q) : exists q, bin10 v = 10 * q /\ 0 <= q.
Proof.
  exists (Z.abs (Qnum v) / (10 * Zpos (Qden v))). split; [apply bin10_eq|].
  apply Z.div_pos; lia.
Qed.

Lemma outlon_range_all (lon : Q) : 0 <= outlon lon <= 170 /\ outlon lon mod 10 = 0.
Proof.
  destruct (bin10_nonneg lon) as (q & Hq & Hq0).
  unfold outlon. rewrite Hq. destruct (180 <=? 10 * q) eqn:E.
  - split; [lia | reflexivity].
  - split; [lia|]. rewrite Z.mul_comm. apply Z.mod_mul. lia.
Qed.

(** X1: the longitude clamp has no upper limit: for every longitude, in
    the domain or not, the final bin is a multiple of ten between 0 and
    170, and it is printed with exactly three digits. *)
Theorem outlon_always_three_digits (lon : Q) :
  0 <= outlon lon <= 170
  /\ outlon lon mod 10 = 0
  /\ Py.format_0d 3 (outlon lon) = three_digits (outlon lon).
Proof.
  destruct (outlon_range_all lon) as [R M]. split; [exact R|]. split; [exact M|].
  apply format_three_digits. lia.
Qed.

Lemma Qabs_lt_num (v : Q) (k : Z) :
  (Qabs v < inject_Z k)%Q -> Z.abs (Qnum v) < k * Zpos (Qden v).
Proof.
  destruct v as [n d]. unfold Qlt, Qabs, inject_Z. cbn [Qnum Qden]. lia.
Qed.

Lemma Qabs_ge_num (v : Q) (k : Z) :
  (inject_Z k <= Qabs v)%Q -> k * Zpos (Qden v) <= Z.abs (Qnum v).
Proof.
  destruct v as [n d]. unfold Qle, Qabs, inject_Z. cbn [Qnum Qden]. lia.
Qed.

Lemma cell_name_matches_ranges (lat lon : Q) :
  0 <= outlat lat < 100 -> 0 <= outlon lon < 1000 ->
  matches_cell (cell_name lat lon) = true.
Proof.
  intros Ra Ro. unfold cell_name.
  rewrite format_two_digits, format_three_digits by lia.
  assert (Da : is_digit (digit_char (outlat lat / 10)) = true)
    by (apply digit_char_is_digit; split;
        [apply Z.div_pos | apply Z.div_lt_upper_bound]; lia).
  assert (Db : is_digit (digit_char (outlat lat mod 10)) = true)
    by (apply digit_char_is_digit, Z.mod_pos_bound; lia).
  assert (Dx : is_digit (digit_char (outlon lon / 100)) = true)
    by (apply digit_char_is_digit; split;
        [apply Z.div_pos | apply Z.div_lt_upper_bound]; lia).
  assert (Dy : is_digit (digit_char (outlon lon mod 100 / 10)) = true).
  { pose proof (Z.mod_pos_bound (outlon lon) 100 ltac:(lia)).
    apply digit_char_is_digit; split;
      [apply Z.div_pos | apply Z.div_lt_upper_bound]; lia. }
  assert (Dz : is_digit (digit_char ((outlon lon mod 100) mod 10)) = true)
    by (apply digit_char_is_digit, Z.mod_pos_bound; lia).
  unfold NShemi_str, EWhemi_str, three_digits, two_digits.
  destruct (Qle_bool 0 lat), (Qle_bool 0 lon);
    cbv [String.append matches_cell]; rewrite Da, Db, Dx, Dy, Dz; reflexivity.
Qed.

(** X2: the latitude clamp tests [outlat == 90] only.  Below 100 degrees
    of absolute latitude the final bin stays at most 80 and the cell name
    matches [[NS]\d{2}[EW]\d{3}] for every longitude whatsoever; from 100
    degrees on the bin is not clamped and is at least 100. *)
Theorem latitude_clamp_reach (lat lon : Q) :
  ((Qabs lat < 100)%Q ->
     0 <= outlat lat <= 80 /\ matches_cell (cell_name lat lon) = true)
  /\ ((100 <= Qabs lat)%Q -> outlat lat = bin10 lat /\ 100 <= outlat lat).
Proof.
  split.
  - intros H. apply (Qabs_lt_num lat 100) in H.
    assert (R : 0 <= outlat lat <= 80).
    { unfold outlat. rewrite bin10_eq.
      assert (0 <= Z.abs (Qnum lat) / (10 * Z.pos (Qden lat)) < 10)
        by (split; [apply Z.div_pos | apply Z.div_lt_upper_bound]; lia).
      destruct (_ =? 90) eqn:E; lia. }
    split; [exact R|].
    pose proof (outlon_range_all lon).
    apply cell_name_matches_ranges; lia.
  - intros H. apply (Qabs_ge_num lat 100) in H.
    assert (10 <= Z.abs (Qnum lat) / (10 * Z.pos (Qden lat)))
      by (apply Z.div_le_lower_bound; lia).
    unfold outlat. rewrite bin10_eq. destruct (_ =? 90) eqn:E; lia.
Qed.

Lemma latitude_clamp_reach_witness :
  (Qabs 95.5 < 100)%Q /\ outlat 95.5 = 80 /\ cell_name 95.5 (-720) = "N80W170"
  /\ (100 <= Qabs (-100))%Q /\ outlat (-100) = 100.
Proof.
  pose proof (latitude_clamp_reach 95.5 (-720)) as [T _].
  pose proof (latitude_clamp_reach (-100) 0) as [_ U].
  assert (H1 : (Qabs 95.5 < 100)%Q) by reflexivity.
  assert (H2 : (100 <= Qabs (-100))%Q) by (vm_compute; discriminate).
  destruct (T H1) as [_ _]. destruct (U H2) as [U1 _].
  split; [exact H1|]. split; [reflexivity|]. split; [reflexivity|].
  split; [exact H2 | rewrite U1; reflexivity].
Defined.

Lemma Qabs_le_of_domain (v : Q) (k : Z) :
  (- inject_Z k <= v)%Q -> (v <= inject_Z k)%Q -> (Qabs v <= inject_Z k)%Q.
Proof.
  destruct v as [n d]. unfold Qle, Qabs, inject_Z, Qopp. cbn [Qnum Qden]. lia.
Qed.

(** The quotient behind a bin, with the two inequalities that define it. *)
Lemma bin10_quotient (v : Q) :
  exists q, bin10 v = 10 * q /\ 0 <= q
            /\ 10 * q * Zpos (Qden v) <= Z.abs (Qnum v) < (10 * q + 10) * Zpos (Qden v).
Proof.
  exists (Z.abs (Qnum v) / (10 * Zpos (Qden v))).
  split; [apply bin10_eq|]. split; [apply Z.div_pos; lia|].
  pose proof (Z.div_mod (Z.abs (Qnum v)) (10 * Zpos (Qden v)) ltac:(lia)) as Hdm.
  pose proof (Z.mod_pos_bound (Z.abs (Qnum v)) (10 * Zpos (Qden v)) ltac:(lia)) as Hr.
  nia.
Qed.

(** X3: the cell contains the point.  On the domain the absolute latitude
    lies between the final latitude bin and that bin plus ten, and the
    same holds for the longitude; the upper end is reached at the pole
    and at the antimeridian only, where the clamp applies. *)
Theorem point_lies_in_its_cell (lat lon : Q) :
  in_lat_domain lat -> in_lon_domain lon ->
  ((inject_Z (outlat lat) <= Qabs lat)%Q /\ (Qabs lat <= inject_Z (outlat lat + 10))%Q
   /\ ((Qabs lat < 90)%Q -> (Qabs lat < inject_Z (outlat lat + 10))%Q))
  /\ ((inject_Z (outlon lon) <= Qabs lon)%Q /\ (Qabs lon <= inject_Z (outlon lon + 10))%Q
      /\ ((Qabs lon < 180)%Q -> (Qabs lon < inject_Z (outlon lon + 10))%Q)).
Proof.
  intros [Alo Ahi] [Olo Ohi].
  pose proof (Qabs_le_num lat 90 Alo Ahi) as Ha.
  pose proof (Qabs_le_num lon 180 Olo Ohi) as Ho.
  destruct (bin10_quotient lat) as (qa & Ea & Qa & La).
  destruct (bin10_quotient lon) as (qo & Eo & Qo & Lo).
  unfold outlat, outlon. rewrite Ea, Eo.
  destruct lat as [na da], lon as [no do].
  unfold Qle, Qlt, Qabs, inject_Z. cbn [Qnum Qden] in *.
  split.
  - destruct (10 * qa =? 90) eqn:E; [apply Z.eqb_eq in E | apply Z.eqb_neq in E].
    + assert (qa = 9) as -> by lia. repeat split; lia.
    + repeat split; lia.
  - destruct (180 <=? 10 * qo) eqn:E; [apply Z.leb_le in E | apply Z.leb_gt in E].
    + assert (qo <= 18) by nia. assert (qo = 18) as -> by lia.
      repeat split; lia.
    + repeat split; lia.
Qed.

Lemma point_lies_in_its_cell_witness :
  in_lat_domain (-87.25) /\ in_lon_domain 180
  /\ (inject_Z (outlat (-87.25)) <= Qabs (-87.25))%Q
  /\ (Qabs 180 <= inject_Z (outlon 180 + 10))%Q.
Proof.
  assert (Ha : in_lat_domain (-87.25)) by (split; vm_compute; discriminate).
  assert (Ho : in_lon_domain 180) by (split; vm_compute; discriminate).
  destruct (point_lies_in_its_cell (-87.25) 180 Ha Ho) as [(T1 & _) (_ & T2 & _)].
  split; [exact Ha|]. split; [exact Ho|]. split; [exact T1 | exact T2].
Defined.

Lemma bin10_monotone (v v' : Q) : (Qabs v <= Qabs v')%Q -> bin10 v <= bin10 v'.
Proof.
  intros H. rewrite !bin10_eq.
  destruct v as [n d], v' as [n' d']. unfold Qle, Qabs in H. cbn [Qnum Qden] in *.
  apply Z.mul_le_mono_nonneg_l; [lia|].
  rewrite <- (Z.div_mul_cancel_r (Z.abs n) (10 * Z.pos d) (Z.pos d')) by lia.
  rewrite <- (Z.div_mul_cancel_r (Z.abs n') (10 * Z.pos d') (Z.pos d)) by lia.
  replace (10 * Z.pos d' * Z.pos d) with (10 * Z.pos d * Z.pos d') by lia.
  apply Z.div_le_mono; lia.
Qed.

(** X4: the bins depend on the absolute value only and never decrease
    when it grows, clamps included: a point farther from the equator (or
    from the prime meridian) never gets a smaller bin, and two points at
    the same distance get the same one. *)
Theorem bins_follow_absolute_value (v v' : Q) :
  ((Qabs v <= Qabs v')%Q -> outlat v <= outlat v' /\ outlon v <= outlon v')
  /\ ((Qabs v == Qabs v')%Q -> outlat v = outlat v' /\ outlon v = outlon v')
  /\ outlat (- v) = outlat v /\ outlon (- v) = outlon v.
Proof.
  assert (Mono : forall a b, (Qabs a <= Qabs b)%Q -> outlat a <= outlat b /\ outlon a <= outlon b).
  { intros a b H. pose proof (bin10_monotone a b H) as M.
    destruct (bin10_nonneg a) as (qa & Ea & _), (bin10_nonneg b) as (qb & Eb & _).
    unfold outlat, outlon. rewrite Ea, Eb in *.
    destruct (10 * qa =? 90) eqn:E1; destruct (10 * qb =? 90) eqn:E2;
      destruct (180 <=? 10 * qa) eqn:E3; destruct (180 <=? 10 * qb) eqn:E4; lia. }
  assert (Same : forall a b, (Qabs a == Qabs b)%Q -> outlat a = outlat b /\ outlon a = outlon b).
  { intros a b H.
    destruct (Mono a b) as [? ?]; [rewrite H; apply Qle_refl|].
    destruct (Mono b a) as [? ?]; [rewrite H; apply Qle_refl|]. lia. }
  split; [apply Mono|]. split; [apply Same|].
  apply Same. apply Qabs_opp.
Qed.

Lemma bins_follow_absolute_value_witness :
  (Qabs (-12.5) <= Qabs 47)%Q /\ outlat (-12.5) <= outlat 47 /\ outlon (-12.5) <= outlon 47.
Proof.
  destruct (bins_follow_absolute_value (-12.5) 47) as (T & _).
  assert (H : (Qabs (-12.5) <= Qabs 47)%Q) by (vm_compute; discriminate).
  split; [exact H | exact (T H)].
Defined.

Lemma digit_val_digit_char (d : Z) : 0 <= d < 10 -> digit_val (digit_char d) = d.
Proof.
  intros Hd. apply Z.eqb_eq.
  apply (Z_range_check (fun d => digit_val (digit_char d) =? d) 10);
    [vm_compute; reflexivity | lia].
Qed.

Lemma parse_cell_digits (ns ew : bool) (a o : Z) :
  0 <= a < 100 -> 0 <= o < 1000 ->
  parse_cell ((if ns then "N" else "S") +:+ two_digits a +:+
              (if ew then "E" else "W") +:+ three_digits o)
    = Some (ns, a, ew, o).
Proof.
  intros Ha Ho.
  assert (Da : 0 <= a / 10 < 10)
    by (split; [apply Z.div_pos | apply Z.div_lt_upper_bound]; lia).
  assert (Db : 0 <= a mod 10 < 10) by (apply Z.mod_pos_bound; lia).
  assert (Dx : 0 <= o / 100 < 10)
    by (split; [apply Z.div_pos | apply Z.div_lt_upper_bound]; lia).
  assert (Hm : 0 <= o mod 100 < 100) by (apply Z.mod_pos_bound; lia).
  assert (Dy : 0 <= o mod 100 / 10 < 10)
    by (split; [apply Z.div_pos | apply Z.div_lt_upper_bound]; lia).
  assert (Dz : 0 <= (o mod 100) mod 10 < 10) by (apply Z.mod_pos_bound; lia).
  unfold three_digits, two_digits.
  destruct ns, ew; cbv [String.append parse_cell matches_cell];
    rewrite !digit_char_is_digit by assumption;
    rewrite !digit_val_digit_char by assumption;
    cbn [one_of Ascii.eqb Bool.eqb orb andb];
    repeat f_equal;
    try (pose proof (Z.div_mod a 10 ltac:(lia)); lia);
    pose proof (Z.div_mod o 100 ltac:(lia)); pose proof (Z.div_mod (o mod 100) 10 ltac:(lia)); lia.
Qed.

Lemma parse_cell_name (lat lon : Q) :
  in_lat_domain lat -> in_lon_domain lon ->
  parse_cell (cell_name lat lon) = Some (Qle_bool 0 lat, outlat lat, Qle_bool 0 lon, outlon lon).
Proof.
  intros Ha Ho. pose proof (outlat_range lat Ha). pose proof (outlon_range lon Ho).
  unfold cell_name. rewrite format_two_digits, format_three_digits by lia.
  unfold NShemi_str, EWhemi_str. apply parse_cell_digits; lia.
Qed.

(** X5: the cell name can be read back.  On the domain, parsing the name
    gives the hemisphere tests and the two final bins, so two points get
    the same cell name exactly when they agree on the signs and on both
    bins: different cells never share a name. *)
Theorem cell_name_reads_back (lat lon lat' lon' : Q) :
  in_lat_domain lat -> in_lon_domain lon ->
  in_lat_domain lat' -> in_lon_domain lon' ->
  parse_cell (cell_name lat lon) = Some (Qle_bool 0 lat, outlat lat, Qle_bool 0 lon, outlon lon)
  /\ (cell_name lat lon = cell_name lat' lon' <->
      Qle_bool 0 lat = Qle_bool 0 lat' /\ outlat lat = outlat lat'
      /\ Qle_bool 0 lon = Qle_bool 0 lon' /\ outlon lon = outlon lon').
Proof.
  intros Ha Ho Ha' Ho'.
  pose proof (parse_cell_name lat lon Ha Ho) as P.
  pose proof (parse_cell_name lat' lon' Ha' Ho') as P'.
  split; [exact P|]. split.
  - intros E. rewrite E, P' in P. injection P as -> -> -> ->. repeat split; reflexivity.
  - intros (E1 & E2 & E3 & E4). unfold cell_name, NShemi_str, EWhemi_str.
    rewrite E1, E2, E3, E4. reflexivity.
Qed.

Lemma cell_name_reads_back_witness :
  in_lat_domain 78.3 /\ in_lon_domain (-123.7)
  /\ parse_cell (cell_name 78.3 (-123.7)) = Some (true, 70, false, 120)
  /\ cell_name 78.3 (-123.7) = cell_name 71 (-129.99)
  /\ cell_name 78.3 (-123.7) <> cell_name 78.3 123.7.
Proof.
  assert (Ha : in_lat_domain 78.3) by (split; vm_compute; discriminate).
  assert (Ho : in_lon_domain (-123.7)) by (split; vm_compute; discriminate).
  assert (Ha' : in_lat_domain 71) by (split; vm_compute; discriminate).
  assert (Ho' : in_lon_domain (-129.99)) by (split; vm_compute; discriminate).
  assert (Ho2 : in_lon_domain 123.7) by (split; vm_compute; discriminate).
  destruct (cell_name_reads_back 78.3 (-123.7) 71 (-129.99) Ha Ho Ha' Ho') as [P [_ Same]].
  destruct (cell_name_reads_back 78.3 (-123.7) 78.3 123.7 Ha Ho Ha Ho2) as [_ [Diff _]].
  split; [exact Ha|]. split; [exact Ho|]. split; [exact P|].
  split; [apply Same; repeat split; reflexivity|].
  intros E. apply Diff in E. destruct E as (_ & _ & E & _). discriminate E.
Defined.

Lemma append_cancel_l (a x y : string) : a +:+ x = a +:+ y -> x = y.
Proof.
  induction a as [|c a IH]; cbv [String.append]; fold String.append; intros H;
    [exact H | injection H as H; exact (IH H)].
Qed.

Lemma append_split (a a' b b' : string) :
  String.length a = String.length a' -> a +:+ b = a' +:+ b' -> a = a' /\ b = b'.
Proof.
  revert a'. induction a as [|c a IH]; intros [|c' a'] Hl H; try discriminate Hl.
  - split; [reflexivity | exact H].
  - cbv [String.append] in H; fold String.append in H. injection H as -> H.
    cbn in Hl. injection Hl as Hl. destruct (IH a' Hl H) as [-> ->]. split; reflexivity.
Qed.

Lemma matches_cell_length (s : string) : matches_cell s = true -> String.length s = 7%nat.
Proof.
  destruct s as [|h [|a [|b [|e [|x [|y [|z [|]]]]]]]]; try discriminate. reflexivity.
Qed.

(** X6: when two granules collide.  For one transfer object and two
    points of the domain, the target keys of two files are equal exactly
    when the points fall in the same cell and the files have the same
    name; a different cell or a different file name always gives a
    different key. *)
Theorem target_keys_equal_iff (self : ASFTransfer) (lat lon lat' lon' : Q) (f f' : FileDesc) :
  in_lat_domain lat -> in_lon_domain lon ->
  in_lat_domain lat' -> in_lon_domain lon' ->
  (target_key_of self lat lon f = target_key_of self lat' lon' f' <->
   cell_name lat lon = cell_name lat' lon' /\ f_filename f = f_filename f').
Proof.
  intros Ha Ho Ha' Ho'. unfold target_key_of, point_to_prefix.
  rewrite !os_path_join_relative by apply cell_name_relative.
  set (d := if (_ || _)%bool then _ else _).
  rewrite !append_assoc. split.
  - intros H. apply append_cancel_l in H.
    apply append_split in H as [Hc Hf].
    + split; [exact Hc|]. exact (append_cancel_l "/" _ _ Hf).
    + rewrite !matches_cell_length by (apply cell_name_matches; assumption). reflexivity.
  - intros [-> ->]. reflexivity.
Qed.

Lemma target_keys_equal_iff_witness :
  in_lat_domain 78.3 /\ in_lon_domain (-123.7)
  /\ target_key_of Scene.transfer 78.3 (-123.7) Scene.granule
     = target_key_of Scene.transfer 75 (-120) Scene.granule
  /\ target_key_of Scene.transfer 78.3 (-123.7) Scene.granule
     <> target_key_of Scene.transfer 68.3 (-123.7) Scene.granule.
Proof.
  assert (Ha : in_lat_domain 78.3) by (split; vm_compute; discriminate).
  assert (Ho : in_lon_domain (-123.7)) by (split; vm_compute; discriminate).
  assert (Ha1 : in_lat_domain 75) by (split; vm_compute; discriminate).
  assert (Ho1 : in_lon_domain (-120)) by (split; vm_compute; discriminate).
  assert (Ha2 : in_lat_domain 68.3) by (split; vm_compute; discriminate).
  destruct (target_keys_equal_iff Scene.transfer 78.3 (-123.7) 75 (-120)
              Scene.granule Scene.granule Ha Ho Ha1 Ho1) as [_ Same].
  destruct (target_keys_equal_iff Scene.transfer 78.3 (-123.7) 68.3 (-123.7)
              Scene.granule Scene.granule Ha Ho Ha2 Ho) as [Diff _].
  split; [exact Ha|]. split; [exact Ho|].
  split; [apply Same; split; reflexivity|].
  intros E. apply Diff in E. destruct E as [E _]. vm_compute in E. discriminate E.
Defined.

(** * More of the per-job task *)

Section TaskExtras.

Variable env : Env.
Variable self : ASFTransfer.

(** What an execution of the task can do to the objects: nothing, or put
    the content of the first file's source at the target key. *)
Lemma copy_granule_objects (job_id : string) (w : World) :
  objects (snd (copy_granule env self job_id w)) = objects w
  \/ exists job f rest lat lon content,
       get_job_by_id env job_id = inr job /\ succeeded job = true
       /\ files job = f :: rest /\ open_dataset env (f_url f) = inr (lat, lon)
       /\ fst (object_exists env (target_bucket self) (target_key_of self lat lon f) w)
            = Returned false
       /\ objects w !! (f_s3_bucket f, f_s3_key f) = Some content
       /\ objects (snd (copy_granule env self job_id w))
            = <[(target_bucket self, target_key_of self lat lon f) := content]> (objects w).
Proof.
  destruct (get_job_by_id env job_id) as [e|job] eqn:Hjob.
  { left. unfold copy_granule, bind, call. rewrite Hjob. reflexivity. }
  destruct (succeeded job) eqn:Hs.
  2:{ left. unfold copy_granule, bind, call. rewrite Hjob. cbn [ret]. rewrite Hs.
      destruct (running job); reflexivity. }
  destruct (files job) as [|f rest] eqn:Hf.
  { left. unfold copy_granule, bind, call. rewrite Hjob. cbn [ret].
    rewrite (succeeded_not_running job Hs), Hs. unfold first_file. rewrite Hf. reflexivity. }
  destruct (open_dataset env (f_url f)) as [e|[lat lon]] eqn:Hr.
  { left. unfold copy_granule, bind, call. rewrite Hjob. cbn [ret].
    rewrite (succeeded_not_running job Hs), Hs. unfold first_file. rewrite Hf.
    cbn [ret]. rewrite Hr. reflexivity. }
  rewrite (copy_granule_succeeded env self job_id job f rest lat lon w Hjob Hs Hf Hr).
  rewrite object_exists_run, bucket_copy_run. cbn zeta. cbn [objects add_call fst].
  destruct (head_fault env _ _) as [[]|] eqn:Hh.
  2-4: left; reflexivity.
  - destruct (copy_fault env _ _); [left; reflexivity|].
    destruct (objects w !! (f_s3_bucket f, f_s3_key f)) as [content|] eqn:Hsrc;
      [|left; reflexivity].
    right. exists job, f, rest, lat, lon, content.
    repeat split; try assumption; try reflexivity.
    rewrite object_exists_run, Hh. reflexivity.
  - destruct (objects w !! (target_bucket self, _)) eqn:Hdst; [left; reflexivity|].
    destruct (copy_fault env _ _); [left; reflexivity|].
    destruct (objects w !! (f_s3_bucket f, f_s3_key f)) as [content|] eqn:Hsrc;
      [|left; reflexivity].
    right. exists job, f, rest, lat, lon, content.
    repeat split; try assumption; try reflexivity.
    rewrite object_exists_run, Hh, Hdst. reflexivity.
Qed.

Lemma copy_granule_keeps (job_id : string) (w : World) :
  (forall bk, fst bk <> target_bucket self ->
     objects (snd (copy_granule env self job_id w)) !! bk = objects w !! bk)
  /\ (forall bk, is_Some (objects w !! bk) ->
        is_Some (objects (snd (copy_granule env self job_id w)) !! bk)).
Proof.
  destruct (copy_granule_objects job_id w)
    as [E|(job & f & rest & lat & lon & content & _ & _ & _ & _ & _ & _ & E)];
    rewrite E.
  - split; [reflexivity | trivial].
  - split.
    + intros [b k] Hb. cbn [fst] in Hb. apply lookup_insert_ne. congruence.
    + intros bk Hbk. rewrite lookup_insert. case_decide; [eexists; reflexivity | exact Hbk].
Qed.

(** X7: the only thing an execution of the task can do to the store,
    whatever its outcome: leave every object as it is, or set the target
    key of the destination bucket to the content of the source object of
    the job's first file.  So the task deletes nothing and never changes
    an object of another bucket. *)
Theorem copy_granule_changes_one_key_at_most (job_id : string) (w : World) :
  let w' := snd (copy_granule env self job_id w) in
  (objects w' = objects w
   \/ exists job f rest lat lon content,
        get_job_by_id env job_id = inr job /\ succeeded job = true
        /\ files job = f :: rest /\ open_dataset env (f_url f) = inr (lat, lon)
        /\ objects w !! (f_s3_bucket f, f_s3_key f) = Some content
        /\ objects w' = <[(target_bucket self, target_key_of self lat lon f) := content]>
                          (objects w))
  /\ (forall bk, fst bk <> target_bucket self -> objects w' !! bk = objects w !! bk)
  /\ (forall bk, is_Some (objects w !! bk) -> is_Some (objects w' !! bk)).
Proof.
  cbn zeta. split; [|apply copy_granule_keeps].
  destruct (copy_granule_objects job_id w)
    as [E|(job & f & rest & lat & lon & content & Hjob & Hs & Hf & Hr & _ & Hsrc & E)].
  - left; exact E.
  - right; exists job, f, rest, lat, lon, content; repeat split; assumption.
Qed.

Lemma not_succeeded_world (job_id : string) (job : Job) (w : World) :
  get_job_by_id env job_id = inr job -> succeeded job = false ->
  snd (copy_granule env self job_id w) = w.
Proof.
  intros Hjob Hs. unfold copy_granule, bind, call. rewrite Hjob. cbn [ret]. rewrite Hs.
  destruct (running job); reflexivity.
Qed.

(** X8: the calls one execution of the task makes on the bucket.  For a
    job that has not succeeded, or whose first file cannot be read,
    there is none.  Otherwise there is one [load] of the target key
    computed from the centre point and the file name, followed, when and
    only when [object_exists] answered [False], by one [bucket.copy] of
    the source of [job.files[0]] to that same key; nothing else. *)
Theorem task_calls_are_on_target_key (job_id : string) (w : World) :
  let w' := snd (copy_granule env self job_id w) in
  (s3_calls w' = s3_calls w
   /\ forall job f rest lat lon,
        get_job_by_id env job_id = inr job -> succeeded job = true ->
        files job = f :: rest -> open_dataset env (f_url f) = inr (lat, lon) -> False)
  \/ exists job f rest lat lon,
       get_job_by_id env job_id = inr job /\ succeeded job = true
       /\ files job = f :: rest /\ open_dataset env (f_url f) = inr (lat, lon)
       /\ let bucket := target_bucket self in
          let key := target_key_of self lat lon f in
          (fst (object_exists env bucket key w) <> Returned false
           /\ s3_calls w' = s3_calls w ++ [HeadObject bucket key])
          \/ (fst (object_exists env bucket key w) = Returned false
              /\ s3_calls w' = s3_calls w ++
                   [HeadObject bucket key;
                    CopyObject (f_s3_bucket f) (f_s3_key f) bucket key]).
Proof.
  cbn zeta.
  destruct (get_job_by_id env job_id) as [e|job] eqn:Hjob.
  { left. split; [unfold copy_granule, bind, call; rewrite Hjob; reflexivity|].
    intros; discriminate. }
  destruct (succeeded job) eqn:Hs.
  2:{ left. split.
      - unfold copy_granule, bind, call. rewrite Hjob. cbn [ret]. rewrite Hs.
        destruct (running job); reflexivity.
      - intros job0 f rest lat lon H0 H1. injection H0 as <-. congruence. }
  destruct (files job) as [|f rest] eqn:Hf.
  { left. split.
    - unfold copy_granule, bind, call. rewrite Hjob. cbn [ret].
      rewrite (succeeded_not_running job Hs), Hs. unfold first_file. rewrite Hf. reflexivity.
    - intros job0 f rest lat lon H0 _ H2. injection H0 as <-. congruence. }
  destruct (open_dataset env (f_url f)) as [e|[lat lon]] eqn:Hr.
  { left. split.
    - unfold copy_granule, bind, call. rewrite Hjob. cbn [ret].
      rewrite (succeeded_not_running job Hs), Hs. unfold first_file. rewrite Hf.
      cbn [ret]. rewrite Hr. reflexivity.
    - intros job0 f0 rest0 lat0 lon0 H0 _ H2 H3. injection H0 as <-.
      rewrite Hf in H2. injection H2 as <- <-. congruence. }
  right. exists job, f, rest, lat, lon.
  split; [reflexivity|]. split; [exact Hs|]. split; [exact Hf|]. split; [exact Hr|].
  cbn zeta.
  rewrite (copy_granule_succeeded env self job_id job f rest lat lon w Hjob Hs Hf Hr).
  rewrite object_exists_run.
  destruct (head_fault env (target_bucket self) (target_key_of self lat lon f)) as [[]|].
  2-4: left; split; [discriminate | reflexivity].
  - right. split; [reflexivity|]. rewrite bucket_copy_run. cbn zeta.
    cbn [objects add_call fst snd].
    destruct (copy_fault env _ _);
      [|destruct (objects w !! (f_s3_bucket f, f_s3_key f))];
      cbn [ret raise fst snd s3_calls add_call set_object]; rewrite <- app_assoc; reflexivity.
  - destruct (objects w !! (target_bucket self, _)).
    + left. split; [discriminate | reflexivity].
    + right. split; [reflexivity|]. rewrite bucket_copy_run. cbn zeta.
      cbn [objects add_call fst snd].
      destruct (copy_fault env _ _);
        [|destruct (objects w !! (f_s3_bucket f, f_s3_key f))];
        cbn [ret raise fst snd s3_calls add_call set_object]; rewrite <- app_assoc; reflexivity.
Qed.

(** X9: with a [HeadObject] that answers, a succeeded job whose target
    key is taken is skipped: the trace ends with the "already exists"
    warning, the only call issued is that one [HeadObject], and no object
    changes.  The job need not be the one that wrote the object. *)
Theorem occupied_target_is_skipped (job_id : string) (job : Job) (f : FileDesc)
    (rest : list FileDesc) (lat lon : Q) (old : string) (w : World) :
  get_job_by_id env job_id = inr job -> succeeded job = true ->
  files job = f :: rest -> open_dataset env (f_url f) = inr (lat, lon) ->
  let bucket := target_bucket self in
  let key := target_key_of self lat lon f in
  head_fault env bucket key = None ->
  objects w !! (bucket, key) = Some old ->
  copy_granule env self job_id w =
    (Returned [msg_processing job; msg_center env lat lon; msg_exists bucket key job],
     add_call (HeadObject bucket key) w).
Proof.
  intros Hjob Hs Hf Hr bucket key Hh Hold.
  rewrite (copy_granule_succeeded env self job_id job f rest lat lon w Hjob Hs Hf Hr).
  fold bucket key. rewrite object_exists_run, Hh, Hold. reflexivity.
Qed.

Lemma healthy_head_keeps (job_id : string) (w : World) :
  (forall key, head_fault env (target_bucket self) key = None) ->
  forall bk content,
    objects w !! bk = Some content ->
    objects (snd (copy_granule env self job_id w)) !! bk = Some content.
Proof.
  intros Hh bk content Hbk.
  destruct (copy_granule_objects job_id w)
    as [E|(job & f & rest & lat & lon & c & _ & _ & _ & _ & Hex & _ & E)];
    rewrite E; [exact Hbk|].
  rewrite object_exists_run, Hh in Hex. cbn [fst] in Hex.
  destruct (objects w !! (target_bucket self, target_key_of self lat lon f)) eqn:Hdst;
    [discriminate|].
  rewrite lookup_insert_ne; [exact Hbk | congruence].
Qed.

(** X10: when [HeadObject] never fails on the destination bucket, one
    execution of the task keeps every object that was in the store, with
    its content: it can add the target object, it cannot replace one. *)
Theorem healthy_head_keeps_every_object (job_id : string) (w : World) :
  (forall key, head_fault env (target_bucket self) key = None) ->
  forall bk content,
    objects w !! bk = Some content ->
    objects (snd (copy_granule env self job_id w)) !! bk = Some content.
Proof.
  exact (healthy_head_keeps job_id w).
Qed.

(** X11: a failed job gets the trace [Processing ...; WARNING: ...
    failed!] and nothing else happens: no call to the store, no change
    of the world, no retry. *)
Theorem failed_job_touches_nothing (job_id : string) (job : Job) (w : World) :
  get_job_by_id env job_id = inr job -> failed job = true ->
  copy_granule env self job_id w = (Returned [msg_processing job; msg_failed job], w).
Proof.
  intros Hjob Hfail. unfold copy_granule, bind, call. rewrite Hjob. cbn [ret].
  assert (Hrun : running job = false)
    by (unfold running, complete; rewrite Hfail, orb_true_r; reflexivity).
  assert (Hs : succeeded job = false)
    by (unfold failed, succeeded in *; destruct (status_code job); congruence).
  rewrite Hrun, Hs. reflexivity.
Qed.

(** X12: only [job.files[0]] is read.  Whatever the other output files
    of a job are, the task behaves as if the job listed its first file
    alone: same outcome, same trace, same world. *)
Theorem only_first_file_is_used (job_id : string) (w : World) :
  copy_granule (first_files_only env) self job_id w = copy_granule env self job_id w.
Proof.
  unfold copy_granule, bind, call. cbn [get_job_by_id first_files_only].
  destruct (get_job_by_id env job_id) as [e|job]; [reflexivity|].
  cbn [ret]. change (running (keep_first_file job)) with (running job).
  change (succeeded (keep_first_file job)) with (succeeded job).
  destruct (running job); [reflexivity|]. destruct (succeeded job); [|reflexivity].
  unfold first_file. cbn [files keep_first_file].
  destruct (files job) as [|f rest]; reflexivity.
Qed.

End TaskExtras.

Lemma occupied_target_is_skipped_witness :
  objects Scene.occupied !! Scene.target = Some "old bytes"
  /\ fst (copy_granule Scene.healthy Scene.transfer "ok" Scene.occupied) =
       Returned ["Processing HyP3 AUTORIFT job ok"; "Image center (lat, lon): (78.3, -123.7)";
                 "WARNING: its-live-data/velocity_image_pair/N70W120/granule.nc already exists! skipping HyP3 AUTORIFT job ok"]
  /\ snd (copy_granule Scene.healthy Scene.transfer "ok" Scene.occupied) =
       add_call (HeadObject (fst Scene.target) (snd Scene.target)) Scene.occupied.
Proof.
  assert (Hold : objects Scene.occupied !! Scene.target = Some "old bytes")
    by (vm_compute; reflexivity).
  pose proof (occupied_target_is_skipped Scene.healthy Scene.transfer "ok"
                (Scene.job_of "ok" SUCCEEDED [Scene.granule]) Scene.granule []
                78.3%Q (-123.7)%Q "old bytes" Scene.occupied
                eq_refl eq_refl eq_refl eq_refl eq_refl Hold) as E.
  split; [exact Hold|]. rewrite E. split; reflexivity.
Defined.

Lemma healthy_head_keeps_every_object_witness :
  (forall key, head_fault Scene.healthy (target_bucket Scene.transfer) key = None)
  /\ objects (snd (copy_granule Scene.healthy Scene.transfer "ok" Scene.occupied))
       !! Scene.target = Some "old bytes".
Proof.
  assert (Hh : forall key, head_fault Scene.healthy (target_bucket Scene.transfer) key = None)
    by reflexivity.
  split; [exact Hh|].
  apply (healthy_head_keeps_every_object Scene.healthy Scene.transfer "ok" Scene.occupied Hh).
  vm_compute. reflexivity.
Defined.

Lemma failed_job_touches_nothing_witness :
  failed (Scene.job_of "bad" FAILED []) = true
  /\ copy_granule Scene.healthy Scene.transfer "bad" Scene.occupied =
       (Returned ["Processing HyP3 AUTORIFT job bad"; "WARNING: HyP3 AUTORIFT job bad failed!"],
        Scene.occupied).
Proof.
  split; [reflexivity|].
  rewrite (failed_job_touches_nothing Scene.healthy Scene.transfer "bad"
             (Scene.job_of "bad" FAILED []) Scene.occupied eq_refl eq_refl).
  reflexivity.
Defined.

Lemma client_error_then_overwrite_witness :
  objects Scene.occupied !! Scene.target = Some "old bytes"
  /\ head_fault Scene.head_denied (fst Scene.target) (snd Scene.target)
       = Some (ClientError "403")
  /\ exists w',
       snd (copy_granule Scene.head_denied Scene.transfer "ok" Scene.occupied) = w'
       /\ objects w' !! Scene.target = Some "new bytes".
Proof.
  assert (Hold : objects Scene.occupied !! Scene.target = Some "old bytes")
    by (vm_compute; reflexivity).
  assert (Hsrc : objects Scene.occupied !! ("hyp3-contentbucket", "a/granule.nc")
                 = Some "new bytes") by (vm_compute; reflexivity).
  destruct (client_error_then_overwrite Scene.head_denied Scene.transfer "ok"
              (Scene.job_of "ok" SUCCEEDED [Scene.granule]) Scene.granule []
              78.3%Q (-123.7)%Q "403" "old bytes" "new bytes" Scene.occupied
              eq_refl eq_refl eq_refl eq_refl eq_refl eq_refl Hold Hsrc) as (w' & E & Hnew).
  split; [exact Hold|]. split; [reflexivity|].
  exists w'. rewrite E. split; [reflexivity | exact Hnew].
Defined.

(** * More of the orchestrator *)

Lemma In_slice {A : Type} (l : list A) (start stop : Z) (x : A) :
  In x (Py.slice l start stop) -> In x l.
Proof.
  unfold Py.slice. intros H.
  rewrite <- (firstn_skipn (Z.to_nat (Py.clamp_index (Z.of_nat (length l)) start)) l).
  apply in_or_app. right.
  match type of H with In _ (firstn ?n ?r) => rewrite <- (firstn_skipn n r) end.
  apply in_or_app. left. exact H.
Qed.

Lemma ceil_div_zero (c : Z) : 0 < c -> ceil_div 0 c = 0.
Proof. intros Hc. unfold ceil_div. apply Z.div_small. lia. Qed.

Lemma ceil_div_step (x c : Z) :
  0 < c -> 0 < x -> ceil_div x c = 1 + ceil_div (x - Z.min c x) c.
Proof.
  intros Hc Hx. destruct (Z.le_gt_cases c x) as [H|H].
  - rewrite Z.min_l by lia. unfold ceil_div.
    replace (x + c - 1) with (x - c + c - 1 + 1 * c) by lia.
    rewrite Z.div_add by lia. lia.
  - rewrite Z.min_r by lia. rewrite Z.sub_diag, ceil_div_zero by lia.
    unfold ceil_div. symmetry. apply (Z.div_unique _ _ 1 (x - 1)); lia.
Qed.

Section RunExtras.

Variable env : Env.
Variable self : ASFTransfer.
Variable job_ids : list string.

(** X14: an empty list of job ids: [run] logs ["0 granules to copy..."]
    and returns at once, for every chunk size (zero and negative ones
    too): nothing is dispatched and the store is not called. *)
Theorem run_on_empty_list (fuel : nat) (chunks_to_copy : Z) (w : World) :
  run env fuel self [] chunks_to_copy w = (Returned tt, add_line "0 granules to copy..." w).
Proof.
  unfold run, bind, logging_info. cbn [length Z.of_nat]. destruct fuel; reflexivity.
Qed.

(** With a chunk size of zero an iteration dispatches an empty chunk and
    leaves [num_to_copy] and [start] as they were. *)
Lemma run_loop_zero_chunk_step (fuel : nat) (num_to_copy start : Z) (w : World) :
  0 < num_to_copy ->
  run_loop env (S fuel) self job_ids 0 num_to_copy start w =
    run_loop env fuel self job_ids 0 num_to_copy start
      (add_chunk [] (add_line ("Starting tasks " +:+ Py.str_int start +:+ ":" +:+
                               Py.str_int start) w)).
Proof.
  intros Hn. cbn [run_loop]. destruct (num_to_copy >? 0) eqn:E; [|lia].
  rewrite Z.add_0_r, Z.sub_0_r.
  assert (Hs : Py.slice job_ids start start = [])
    by (unfold Py.slice; rewrite Z.sub_diag; reflexivity).
  rewrite Hs. reflexivity.
Qed.

Lemma run_loop_zero_chunk_world (fuel : nat) (num_to_copy start : Z) (w : World) :
  0 < num_to_copy ->
  let r := run_loop env fuel self job_ids 0 num_to_copy start w in
  fst r = OutOfFuel
  /\ objects (snd r) = objects w /\ s3_calls (snd r) = s3_calls w
  /\ exists k, dispatched (snd r) = dispatched w ++ repeat [] k.
Proof.
  intros Hn. cbn zeta. revert w. induction fuel as [|fuel IH]; intros w.
  - cbn [run_loop]. destruct (num_to_copy >? 0) eqn:E; [|lia].
    cbn [fst snd]. repeat split. exists 0%nat. symmetry. apply app_nil_r.
  - rewrite run_loop_zero_chunk_step by exact Hn.
    destruct (IH (add_chunk [] (add_line ("Starting tasks " +:+ Py.str_int start +:+ ":" +:+
                                           Py.str_int start) w)))
      as (I1 & I2 & I3 & k & I4).
    split; [exact I1|]. split; [exact I2|]. split; [exact I3|].
    exists (S k). rewrite I4. cbn [dispatched add_chunk add_line repeat].
    rewrite <- app_assoc. reflexivity.
Qed.

(** X15: a chunk size of zero with at least one job id: [run] never
    returns.  Whatever the number of iterations allowed, it is still
    looping; it has called the store for nothing and every chunk it
    dispatched is empty. *)
Theorem run_with_zero_chunk_loops (fuel : nat) (w : World) :
  job_ids <> [] ->
  let r := run env fuel self job_ids 0 w in
  fst r = OutOfFuel
  /\ objects (snd r) = objects w /\ s3_calls (snd r) = s3_calls w
  /\ exists k, dispatched (snd r) = dispatched w ++ repeat [] k.
Proof.
  intros Hne. cbn zeta. unfold run, bind, logging_info.
  assert (Hn : 0 < Z.of_nat (length job_ids)) by (destruct job_ids; [contradiction | cbn; lia]).
  exact (run_loop_zero_chunk_world fuel (Z.of_nat (length job_ids)) 0
           (add_line (Py.str_int (Z.of_nat (length job_ids)) +:+ " granules to copy...") w) Hn).
Qed.

(** X16: a negative chunk size with at least one job id: the assertion
    of line 77 fails in the first iteration.  [run] raises
    [AssertionError] after its two announcements; nothing was dispatched
    and the store was not called. *)
Theorem run_with_negative_chunk_asserts (fuel : nat) (chunks_to_copy : Z) (w : World) :
  job_ids <> [] -> chunks_to_copy < 0 ->
  run env (S fuel) self job_ids chunks_to_copy w =
    (Raised AssertionError,
     add_line ("Starting tasks " +:+ Py.str_int 0 +:+ ":" +:+ Py.str_int chunks_to_copy)
       (add_line (Py.str_int (Z.of_nat (length job_ids)) +:+ " granules to copy...") w)).
Proof.
  intros Hne Hc. unfold run, bind, logging_info.
  assert (Hn : 0 < Z.of_nat (length job_ids)) by (destruct job_ids; [contradiction | cbn; lia]).
  cbn [run_loop]. destruct (Z.of_nat (length job_ids) >? 0) eqn:E; [|lia].
  destruct (Z.of_nat (length job_ids) >? chunks_to_copy) eqn:E'; [|lia].
  unfold bind, logging_info. rewrite length_map, Z.add_0_l.
  destruct (Z.of_nat (length (Py.slice job_ids 0 chunks_to_copy)) =? chunks_to_copy) eqn:E2;
    [apply Z.eqb_eq in E2; lia | reflexivity].
Qed.

End RunExtras.

Lemma dask_compute_length {A : Type} (tasks : list (M A)) (w w' : World) (rs : list A) :
  dask_compute tasks w = (Returned rs, w') -> length rs = length tasks.
Proof.
  revert w w' rs. induction tasks as [|t tasks IH]; intros w w' rs H.
  - cbn in H. injection H as <- _. reflexivity.
  - cbn [dask_compute] in H. unfold bind in H.
    destruct (t w) as [[r|e|] w1]; try discriminate.
    destruct (dask_compute tasks w1) as [[rs'|e|] w2] eqn:E; try discriminate.
    cbn [ret] in H. injection H as <- _. cbn. f_equal. exact (IH w1 w2 rs' E).
Qed.

Section RunLog.

Variable env : Env.
Variable self : ASFTransfer.
Variable job_ids : list string.
Variable chunks_to_copy : Z.
Hypothesis chunk_positive : 0 < chunks_to_copy.

Let L : Z := Z.of_nat (length job_ids).

(** What a loop that returns has logged: one line per chunk and one line
    per job. *)
Lemma run_loop_log (fuel : nat) :
  forall (start : Z) (w w' : World),
    0 <= start <= L ->
    run_loop env fuel self job_ids chunks_to_copy (L - start) start w = (Returned tt, w') ->
    exists rest,
      log w' = log w ++ rest
      /\ Z.of_nat (length rest) = ceil_div (L - start) chunks_to_copy + (L - start).
Proof.
  induction fuel as [|fuel IH]; intros start w w' Hs Hrun.
  - destruct (Z.eq_dec start L) as [->|Hne].
    + rewrite run_loop_done in Hrun. injection Hrun as <-. exists [].
      rewrite app_nil_r, Z.sub_diag, ceil_div_zero by exact chunk_positive.
      split; reflexivity.
    + cbn [run_loop] in Hrun. destruct (L - start >? 0) eqn:E; [discriminate | lia].
  - destruct (Z.eq_dec start L) as [->|Hne].
    { rewrite run_loop_done in Hrun. injection Hrun as <-. exists [].
      rewrite app_nil_r, Z.sub_diag, ceil_div_zero by exact chunk_positive.
      split; reflexivity. }
    pose proof (run_loop_step env self job_ids chunks_to_copy chunk_positive fuel start w
                  ltac:(fold L; lia)) as [Hlen Hstep].
    cbn zeta in Hlen, Hstep. fold L in Hlen, Hstep.
    set (num_tasks := Z.min chunks_to_copy (L - start)) in *.
    set (ids := firstn (Z.to_nat num_tasks) (skipn (Z.to_nat start) job_ids)) in *.
    set (line := "Starting tasks " +:+ _) in *.
    rewrite Hstep in Hrun.
    pose proof (dask_compute_frame env self ids (add_chunk ids (add_line line w))) as [Hl1 _].
    destruct (dask_compute (map (copy_granule env self) ids) (add_chunk ids (add_line line w)))
      as [[rs|e|] w1] eqn:E1; try discriminate.
    cbn [snd] in Hl1.
    pose proof (dask_compute_length _ _ _ _ E1) as Hrs. rewrite length_map in Hrs.
    destruct (log_results_run rs w1) as (w2 & E2 & Hl2 & _). rewrite E2 in Hrun.
    destruct (IH (start + num_tasks) w2 w' ltac:(lia) Hrun) as (rest & Hl3 & Hn3).
    exists (line :: map (join "-->") rs ++ rest). split.
    + rewrite Hl3, Hl2, Hl1. cbn [log add_chunk add_line].
      rewrite <- !app_assoc. reflexivity.
    + cbn [length]. rewrite length_app, length_map, Nat2Z.inj_succ, Nat2Z.inj_add, Hn3, Hrs, Hlen.
      rewrite (ceil_div_step (L - start) chunks_to_copy) by lia. fold num_tasks.
      replace (L - (start + num_tasks)) with (L - start - num_tasks) by lia. lia.
Qed.

(** X17: what a run that returns has logged, for a positive chunk size:
    after the lines that were there, the announcement of the number of
    granules, then [ceil(L/C) + L] lines: a [Starting tasks] line for each
    chunk and one line for each job. *)
Theorem run_log_line_count (fuel : nat) (w w' : World) :
  run env fuel self job_ids chunks_to_copy w = (Returned tt, w') ->
  exists rest,
    log w' = log w ++ (Py.str_int L +:+ " granules to copy...") :: rest
    /\ Z.of_nat (length rest) = ceil_div L chunks_to_copy + L.
Proof.
  unfold run, bind, logging_info. fold L. intros Hrun.
  assert (Hrun' : run_loop env fuel self job_ids chunks_to_copy (L - 0) 0
                    (add_line (Py.str_int L +:+ " granules to copy...") w) = (Returned tt, w'))
    by (rewrite Z.sub_0_r; exact Hrun).
  destruct (run_loop_log fuel 0 _ w' ltac:(subst L; lia) Hrun') as (rest & Hl & Hn).
  exists rest. rewrite Hl. cbn [log add_line]. rewrite <- app_assoc.
  split; [reflexivity|]. rewrite Hn, Z.sub_0_r. reflexivity.
Qed.

End RunLog.

Lemma run_log_line_count_witness :
  0 < 2
  /\ exists w' rest,
       run Scene.healthy 5 Scene.transfer ["run"; "ok"; "bad"; "ok"; "run"] 2 Scene.fresh
         = (Returned tt, w')
       /\ log w' = "5 granules to copy..." :: rest
       /\ length rest = 8%nat.
Proof.
  assert (HC : 0 < 2) by lia.
  pose (r := run Scene.healthy 5 Scene.transfer ["run"; "ok"; "bad"; "ok"; "run"] 2 Scene.fresh).
  assert (E : r = (Returned tt, snd r)) by (vm_compute; reflexivity).
  destruct (run_log_line_count Scene.healthy Scene.transfer ["run"; "ok"; "bad"; "ok"; "run"] 2
              HC 5 Scene.fresh (snd r) E) as (rest & Hl & Hn).
  split; [exact HC|]. exists (snd r), rest. split; [exact E|]. split; [exact Hl|].
  change (Z.of_nat (length rest) = 8) in Hn. lia.
Defined.

Section RunInvariant.

Variable env : Env.
Variable self : ASFTransfer.
Variable job_ids : list string.

(** A property of the world that logging and dispatching keep, and that
    every task of the list keeps, is kept by the whole run, whatever its
    outcome. *)
Variable P : World -> Prop.
Hypothesis P_line : forall line w, P w -> P (add_line line w).
Hypothesis P_chunk : forall ids w, P w -> P (add_chunk ids w).
Hypothesis P_task :
  forall id w, In id job_ids -> P w -> P (snd (copy_granule env self id w)).

Lemma dask_compute_preserves (ids : list string) (w : World) :
  (forall id, In id ids -> In id job_ids) ->
  P w -> P (snd (dask_compute (map (copy_granule env self) ids) w)).
Proof.
  revert w. induction ids as [|id ids IH]; intros w Hin Hw; [exact Hw|].
  cbn [map dask_compute]. unfold bind.
  pose proof (P_task id w (Hin id (or_introl eq_refl)) Hw) as H1.
  destruct (copy_granule env self id w) as [[r|e|] w1]; cbn [snd] in *; try exact H1.
  pose proof (IH w1 (fun i Hi => Hin i (or_intror Hi)) H1) as H2.
  destruct (dask_compute (map (copy_granule env self) ids) w1) as [[rs|e|] w2];
    cbn [snd ret] in *; exact H2.
Qed.

Lemma log_results_preserves (results : list (list string)) (w : World) :
  P w -> P (snd (log_results results w)).
Proof.
  revert w. induction results as [|r rs IH]; intros w Hw; [exact Hw|].
  cbn [log_results]. unfold bind, logging_info. apply IH, P_line, Hw.
Qed.

Lemma run_loop_preserves (fuel : nat) :
  forall (chunks_to_copy num_to_copy start : Z) (w : World),
    P w -> P (snd (run_loop env fuel self job_ids chunks_to_copy num_to_copy start w)).
Proof.
  induction fuel as [|fuel IH]; intros C n start w Hw.
  - cbn [run_loop]. destruct (n >? 0); exact Hw.
  - cbn [run_loop]. destruct (n >? 0); [|exact Hw].
    set (num_tasks := if n >? C then C else n).
    set (ids := Py.slice job_ids start (start + num_tasks)).
    set (line := "Starting tasks " +:+ _).
    unfold bind at 1. unfold logging_info at 1.
    unfold bind at 1.
    destruct (Z.of_nat (length (map (copy_granule env self) ids)) =? num_tasks);
      cbn [assert ret raise]; [|apply P_line, Hw].
    unfold bind at 1. unfold record_chunk at 1. unfold bind at 1.
    pose proof (dask_compute_preserves ids (add_chunk ids (add_line line w))
                  (fun i Hi => In_slice _ _ _ _ Hi)
                  (P_chunk _ _ (P_line _ _ Hw))) as H1.
    destruct (dask_compute (map (copy_granule env self) ids) _) as [[rs|e|] w1];
      cbn [snd] in H1; try exact H1.
    unfold bind at 1.
    pose proof (log_results_preserves rs w1 H1) as H2.
    destruct (log_results_run rs w1) as (w2 & E2 & _). rewrite E2 in H2 |- *.
    cbn [snd] in H2. apply IH, H2.
Qed.

Lemma run_preserves (fuel : nat) (chunks_to_copy : Z) (w : World) :
  P w -> P (snd (run env fuel self job_ids chunks_to_copy w)).
Proof.
  intros Hw. unfold run, bind, logging_info. apply run_loop_preserves, P_line, Hw.
Qed.

End RunInvariant.

Section RunStore.

Variable env : Env.
Variable self : ASFTransfer.
Variable job_ids : list string.

(** X18: a whole run, whatever its chunk size and however it ends
    (returning, raising, still looping), deletes no object and changes no
    object outside the destination bucket: the source buckets are only
    read. *)
Theorem run_keeps_objects (fuel : nat) (chunks_to_copy : Z) (w : World) :
  let w' := snd (run env fuel self job_ids chunks_to_copy w) in
  (forall bk, fst bk <> target_bucket self -> objects w' !! bk = objects w !! bk)
  /\ (forall bk, is_Some (objects w !! bk) -> is_Some (objects w' !! bk)).
Proof.
  cbn zeta.
  apply (run_preserves env self job_ids
           (fun w' =>
              (forall bk, fst bk <> target_bucket self -> objects w' !! bk = objects w !! bk)
              /\ (forall bk, is_Some (objects w !! bk) -> is_Some (objects w' !! bk)))).
  - intros line w0 H. exact H.
  - intros ids w0 H. exact H.
  - intros id w0 _ [H1 H2]. destruct (copy_granule_keeps env self id w0) as [K1 K2]. split.
    + intros bk Hbk. rewrite K1 by exact Hbk. apply H1, Hbk.
    + intros bk Hbk. apply K2, H2, Hbk.
  - split; [reflexivity | trivial].
Qed.

(** X19: a batch without a succeeded job (every id resolves to a job that
    is still running or has failed) leaves the store alone: whatever the
    chunk size, the run calls S3 for nothing and no object changes. *)
Theorem idle_batch_leaves_store (fuel : nat) (chunks_to_copy : Z) (w : World) :
  (forall id, In id job_ids ->
     exists job, get_job_by_id env id = inr job /\ succeeded job = false) ->
  objects (snd (run env fuel self job_ids chunks_to_copy w)) = objects w
  /\ s3_calls (snd (run env fuel self job_ids chunks_to_copy w)) = s3_calls w.
Proof.
  intros Hidle.
  apply (run_preserves env self job_ids
           (fun w' => objects w' = objects w /\ s3_calls w' = s3_calls w)).
  - intros line w0 H. exact H.
  - intros ids w0 H. exact H.
  - intros id w0 Hid H. destruct (Hidle id Hid) as (job & Hjob & Hs).
    rewrite (not_succeeded_world env self id job w0 Hjob Hs). exact H.
  - split; reflexivity.
Qed.

(** X20: when [HeadObject] never fails on the destination bucket, a
    whole run keeps every object that was in the store when it started,
    with its content, whatever the chunk size and however the run ends:
    running the same list again replaces nothing. *)
Theorem healthy_run_keeps_initial_objects (fuel : nat) (chunks_to_copy : Z) (w : World) :
  (forall key, head_fault env (target_bucket self) key = None) ->
  forall bk content,
    objects w !! bk = Some content ->
    objects (snd (run env fuel self job_ids chunks_to_copy w)) !! bk = Some content.
Proof.
  intros Hh.
  apply (run_preserves env self job_ids
           (fun w' => forall bk content,
                        objects w !! bk = Some content -> objects w' !! bk = Some content)).
  - intros line w0 H. exact H.
  - intros ids w0 H. exact H.
  - intros id w0 _ H bk content Hbk.
    apply (healthy_head_keeps env self id w0 Hh), H, Hbk.
  - trivial.
Qed.

End RunStore.

Lemma idle_batch_leaves_store_witness :
  (forall id, In id ["run"; "bad"; "run"] ->
     exists job, get_job_by_id Scene.healthy id = inr job /\ succeeded job = false)
  /\ objects (snd (run Scene.healthy 3 Scene.transfer ["run"; "bad"; "run"] 2 Scene.occupied))
       = objects Scene.occupied
  /\ s3_calls (snd (run Scene.healthy 3 Scene.transfer ["run"; "bad"; "run"] 2 Scene.occupied))
       = [].
Proof.
  assert (Hidle : forall id, In id ["run"; "bad"; "run"] ->
             exists job, get_job_by_id Scene.healthy id = inr job /\ succeeded job = false).
  { intros id Hid.
    repeat (destruct Hid as [<-|Hid]; [eexists; split; reflexivity|]). destruct Hid. }
  split; [exact Hidle|].
  exact (idle_batch_leaves_store Scene.healthy Scene.transfer ["run"; "bad"; "run"]
           3 2 Scene.occupied Hidle).
Defined.

Lemma healthy_run_keeps_initial_objects_witness :
  (forall key, head_fault Scene.healthy (target_bucket Scene.transfer) key = None)
  /\ objects Scene.occupied !! Scene.target = Some "old bytes"
  /\ objects (snd (run Scene.healthy 3 Scene.transfer ["ok"; "run"; "ok"] 2 Scene.occupied))
       !! Scene.target = Some "old bytes".
Proof.
  assert (Hh : forall key, head_fault Scene.healthy (target_bucket Scene.transfer) key = None)
    by reflexivity.
  assert (Hold : objects Scene.occupied !! Scene.target = Some "old bytes")
    by (vm_compute; reflexivity).
  split; [exact Hh|]. split; [exact Hold|].
  exact (healthy_run_keeps_initial_objects Scene.healthy Scene.transfer ["ok"; "run"; "ok"]
           3 2 Scene.occupied Hh Scene.target "old bytes" Hold).
Defined.

Lemma run_with_zero_chunk_loops_witness :
  ["ok"; "run"] <> []
  /\ fst (run Scene.healthy 7 Scene.transfer ["ok"; "run"] 0 Scene.fresh) = OutOfFuel
  /\ s3_calls (snd (run Scene.healthy 7 Scene.transfer ["ok"; "run"] 0 Scene.fresh)) = [].
Proof.
  assert (Hne : ["ok"; "run"] <> []) by discriminate.
  destruct (run_with_zero_chunk_loops Scene.healthy Scene.transfer ["ok"; "run"] 7
              Scene.fresh Hne) as (T1 & _ & T3 & _).
  split; [exact Hne|]. split; [exact T1 | exact T3].
Defined.

Lemma run_with_negative_chunk_asserts_witness :
  ["ok"; "run"] <> [] /\ -1 < 0
  /\ fst (run Scene.healthy 1 Scene.transfer ["ok"; "run"] (-1) Scene.fresh)
       = Raised AssertionError
  /\ log (snd (run Scene.healthy 1 Scene.transfer ["ok"; "run"] (-1) Scene.fresh))
       = ["2 granules to copy..."; "Starting tasks 0:-1"].
Proof.
  assert (Hne : ["ok"; "run"] <> []) by discriminate.
  assert (Hc : -1 < 0) by lia.
  pose proof (run_with_negative_chunk_asserts Scene.healthy Scene.transfer ["ok"; "run"]
                0 (-1) Scene.fresh Hne Hc) as E.
  split; [exact Hne|]. split; [exact Hc|]. rewrite E. split; reflexivity.
Defined.
